(** * plot_nemd.py: post-processing of a NEMD run (GPUMD example)

    A shallow embedding of [example/plot_nemd.py] and the properties its
    specification states about it.

    The script is a straight line of numpy reductions, scalar conversions
    and text writers.  It is embedded as follows.

    - float64 values are idealised: a finite value is an exact rational
      (no rounding, no overflow), and the two kinds of non-finite value
      that IEEE division produces are kept, [Inf] for x/0 and [NaN] for
      0/0.  Zero carries no sign; a zero divisor counts as +0.  This
      model carries the shape of the computation (which entries are
      read, in which order, what raises, where NaN appears); where a
      property depends on rounding, the scalar arithmetic is taken on
      binary64 floats themselves, in module [F64].
    - numpy arrays are lists ([ndarray2] for the 2-D temperature table),
      indexing raises [IndexError] as in Python, elementwise addition
      broadcasts or raises [ValueError] as in numpy.
    - the script body is written in a state-and-exception monad over the
      files it writes, so that a write loop that raises leaves the lines
      it had already written. *)

From Stdlib Require Import QArith Qcanon ZArith List String Ascii Bool Lia.
From Stdlib Require Import DecimalString.
From Stdlib Require Floats.
Import ListNotations.

Set Warnings "-inexact-float".

Set Implicit Arguments.

(** ** float64, idealised *)

Module Float.

Local Open Scope Qc_scope.

Inductive float : Type :=
| Fin (q : Qc)
| Inf (negative : bool)
| NaN.

Definition of_Q (q : Q) : float := Fin (Q2Qc q).
Definition of_nat (n : nat) : float := Fin (Q2Qc (inject_Z (Z.of_nat n))).

Definition zero : float := Fin 0.

(** Sign of a finite value, as a comparison with 0. *)
Definition sgn (q : Qc) : comparison := (q ?= 0).

(** The sign of a product, from the signs of its factors. *)
Definition sign_mul (a b : comparison) : comparison :=
  match a, b with
  | Eq, _ | _, Eq => Eq
  | Lt, Lt | Gt, Gt => Gt
  | _, _ => Lt
  end.

Definition fneg (x : float) : float :=
  match x with
  | Fin a => Fin (- a)
  | Inf s => Inf (negb s)
  | NaN => NaN
  end.

Definition fadd (x y : float) : float :=
  match x, y with
  | NaN, _ | _, NaN => NaN
  | Fin a, Fin b => Fin (a + b)
  | Fin _, Inf s | Inf s, Fin _ => Inf s
  | Inf s, Inf s' => if Bool.eqb s s' then Inf s else NaN
  end.

Definition fsub (x y : float) : float := fadd x (fneg y).

Definition fmul (x y : float) : float :=
  match x, y with
  | NaN, _ | _, NaN => NaN
  | Fin a, Fin b => Fin (a * b)
  | Fin a, Inf s | Inf s, Fin a =>
      match sgn a with
      | Eq => NaN
      | Lt => Inf (negb s)
      | Gt => Inf s
      end
  | Inf s, Inf s' => Inf (xorb s s')
  end.

Definition fdiv (x y : float) : float :=
  match x, y with
  | NaN, _ | _, NaN => NaN
  | Fin a, Fin b =>
      match sgn b with
      | Eq => match sgn a with
              | Eq => NaN
              | Lt => Inf true
              | Gt => Inf false
              end
      | _ => Fin (a / b)
      end
  | Fin _, Inf _ => Fin 0
  | Inf s, Fin b =>
      match sgn b with
      | Lt => Inf (negb s)
      | _ => Inf s
      end
  | Inf _, Inf _ => NaN
  end.

(** [sum] of a sequence, left to right from 0 as [np.add.reduce] does. *)
Definition fsum (l : list float) : float := fold_left fadd l zero.

(** [numpy.mean] of a 1-D sequence: the sum divided by the number of
    elements.  For no element this is 0/0, that is [NaN] (numpy warns
    and returns nan, it does not raise). *)
Definition mean (l : list float) : float := fdiv (fsum l) (of_nat (List.length l)).

Definition is_nan (x : float) : bool :=
  match x with NaN => true | _ => false end.

End Float.

(** ** Python and numpy: exceptions, indexing, slices, reductions *)

Module Py.

Import Float.

Inductive exn : Type := IndexError | ValueError.

Inductive res (A : Type) : Type :=
| Ok (a : A)
| Raise (e : exn).
Arguments Ok {A} a.
Arguments Raise {A} e.

Definition rbind {A B} (m : res A) (k : A -> res B) : res B :=
  match m with
  | Ok a => k a
  | Raise e => Raise e
  end.

(** [a[i]] on a sequence: a negative index counts from the end, an
    index outside the sequence raises [IndexError]. *)
Definition getitem {A} (a : list A) (i : Z) : res A :=
  let n := Z.of_nat (List.length a) in
  let j := if (i <? 0)%Z then (i + n)%Z else i in
  if ((0 <=? j) && (j <? n))%Z
  then match nth_error a (Z.to_nat j) with
       | Some x => Ok x
       | None => Raise IndexError
       end
  else Raise IndexError.

(** [range(a, b)] *)
Definition range (a b : nat) : list nat := seq a (b - a).

(** [str] of a non-negative int. *)
Definition str_int (n : nat) : string := NilZero.string_of_uint (Nat.to_uint n).

Definition nl : string := String (ascii_of_nat 10) EmptyString.

(** A 2-D numpy array: a rectangular table given by its rows.  The
    number of columns is kept apart, since a table without rows still
    has a shape [(0, ncols)]. *)
Record ndarray2 : Type := mk_ndarray2 {
  ncols : nat;
  rows : list (list float)
}.


Definition wfb (M : ndarray2) : bool :=
  forallb (fun r => Nat.eqb (List.length r) (ncols M)) (rows M).

(** [M.shape[0]] *)
Definition shape0 (M : ndarray2) : nat := List.length (rows M).

(** [M[r0:, c0:]] for non-negative [r0], [c0] *)
Definition slice_from (r0 c0 : nat) (M : ndarray2) : ndarray2 :=
  {| ncols := ncols M - c0;
     rows := map (skipn c0) (skipn r0 (rows M)) |}.

Definition column (j : nat) (M : ndarray2) : list float :=
  map (fun r => nth j r NaN) (rows M).

(** [mean(M, axis=0)]: one mean per column, taken over the rows. *)
Definition mean_axis0 (M : ndarray2) : list float :=
  map (fun j => mean (column j M)) (seq 0 (ncols M)).

(** [a + b] on 1-D arrays: elementwise for equal lengths, an array of
    length 1 is broadcast, any other pair of shapes raises. *)
Fixpoint zip_with {A B C} (f : A -> B -> C) (a : list A) (b : list B) : list C :=
  match a, b with
  | x :: a', y :: b' => f x y :: zip_with f a' b'
  | _, _ => []
  end.

Definition add (a b : list float) : res (list float) :=
  if Nat.eqb (List.length a) (List.length b) then Ok (zip_with fadd a b)
  else if Nat.eqb (List.length a) 1 then Ok (map (fadd (hd NaN a)) b)
  else if Nat.eqb (List.length b) 1 then Ok (map (fun x => fadd x (hd NaN b)) a)
  else Raise ValueError.

(** [c * a] and [a / c] for a scalar [c] *)
Definition scale (c : float) (a : list float) : list float := map (fmul c) a.
Definition div_by (a : list float) (c : float) : list float :=
  map (fun x => fdiv x c) a.

(** [np.arange(a, b)] as floats *)
Definition arange (a b : nat) : list float := map of_nat (range a b).

(** *** State and exceptions

    A statement runs on a state and returns the new state together with
    its result or the exception it raised: what was done to the state
    before an exception stays done. *)

Definition st (S A : Type) : Type := S -> S * res A.

Definition ret {S A} (a : A) : st S A := fun s => (s, Ok a).

Definition bind {S A B} (m : st S A) (k : A -> st S B) : st S B :=
  fun s =>
    match m s with
    | (s', Ok a) => k a s'
    | (s', Raise e) => (s', Raise e)
    end.

Definition lift {S A} (r : res A) : st S A := fun s => (s, r).

(** [for x in xs: body] *)
Fixpoint for_each {S A} (xs : list A) (body : A -> st S unit) : st S unit :=
  match xs with
  | [] => ret tt
  | x :: xs' => bind (body x) (fun _ => for_each xs' body)
  end.

(** *** Files

    An open text file is the text written to it so far; the script as a
    whole runs on the files it has written, path to contents. *)

Definition file (A : Type) : Type := st string A.

(** [file.writelines(s)] for a string [s]: its characters are appended. *)
Definition writelines (s : string) : file unit :=
  fun content => ((content ++ s)%string, Ok tt).

Definition files : Type := string -> option string.

Definition no_files : files := fun _ => None.

Definition io (A : Type) : Type := st files A.

Definition put (path content : string) (fs : files) : files :=
  fun p => if String.eqb p path then Some content else fs p.

(** [with open(path, "w") as file: body].  The file is created or
    truncated, the body writes to it, and leaving the block closes it,
    also when the body raised: the text written until then is the
    file's contents, and the exception goes on. *)
Definition with_open_w {A} (path : string) (body : file A) : io A :=
  fun fs =>
    let (content, r) := body EmptyString in
    (put path content fs, r).

End Py.

Declare Scope st_scope.
Delimit Scope st_scope with st.
Notation "x <- m ;; k" := (Py.bind m (fun x => k))
  (at level 61, m at next level, right associativity) : st_scope.
Notation "m ;; k" := (Py.bind m (fun _ => k))
  (at level 61, right associativity) : st_scope.
Notation "x <-? m ;; k" := (Py.bind (Py.lift m) (fun x => k))
  (at level 61, m at next level, right associativity) : st_scope.

(** ** The script *)

Module Nemd.

Import Float Py.
Local Open Scope string_scope.
Local Open Scope st_scope.

(** The mapping returned by [load_compute(['T'])]: the per-group
    temperatures, one row per sample, and the energies accumulated in
    the two thermostats, one entry per sample. *)
Record Compute : Type := mk_compute {
  compute_T : ndarray2;
  compute_Ein : list float;
  compute_Eout : list float
}.

(** The mapping [load_shc(250,1000)['run0']] *)
Record Shc : Type := mk_shc {
  shc_jwi : list float;
  shc_jwo : list float;
  shc_Ki : list float;
  shc_Ko : list float;
  shc_t : list float;
  shc_nu : list float
}.

Definition of_Z (z : Z) : float := Fin (Q2Qc (inject_Z z)).

(** [ndata=T.shape[0]] *)
Definition ndata (T : ndarray2) : nat := shape0 T.

(** [int(ndata/2)]: true division, then truncation; on a non-negative
    int this is the floor of the half. *)
Definition mid (ndata : nat) : nat := ndata / 2.

(** [temp_ave=mean(T[int(ndata/2)+1:,1:],axis=0)] *)
Definition temp_ave (T : ndarray2) : list float :=
  mean_axis0 (slice_from (mid (ndata T) + 1) 1 T).

(** [dt=0.001], [Ns=1000] *)
Definition dt : float := of_Q 0.001.
Definition Ns : float := of_Z 1000.

(** [t=dt*np.arange(1,ndata+1)*Ns/1000] *)
Definition t (dt Ns : float) (ndata : nat) : list float :=
  div_by (map (fun x => fmul x Ns) (scale dt (arange 1 (ndata + 1)))) (of_Z 1000).

(** [group_idx=range(1,10)] *)
Definition group_idx : list nat := range 1 10.

(** [deltaT=temp_ave[0]-temp_ave[-1]] *)
Definition deltaT (temp_ave : list float) : res float :=
  rbind (getitem temp_ave 0) (fun a =>
  rbind (getitem temp_ave (-1)) (fun b =>
  Ok (fsub a b))).

(** [Q1=(Ein[int(ndata/2)]-Ein[-1])/(ndata/2)/dt/Ns] *)
Definition Q1 (dt Ns : float) (ndata : nat) (Ein : list float) : res float :=
  rbind (getitem Ein (Z.of_nat (mid ndata))) (fun a =>
  rbind (getitem Ein (-1)) (fun b =>
  Ok (fdiv (fdiv (fdiv (fsub a b) (fdiv (of_nat ndata) (of_Z 2))) dt) Ns))).

(** [Q2=(Eout[-1]-Eout[int(ndata/2)])/(ndata/2)/dt/Ns] *)
Definition Q2 (dt Ns : float) (ndata : nat) (Eout : list float) : res float :=
  rbind (getitem Eout (-1)) (fun a =>
  rbind (getitem Eout (Z.of_nat (mid ndata))) (fun b =>
  Ok (fdiv (fdiv (fdiv (fsub a b) (fdiv (of_nat ndata) (of_Z 2))) dt) Ns))).

(** Lines 49 to 51: [Q1], then [Q2], then [Q=mean([Q1,Q1])]. *)
Definition Q (dt Ns : float) (ndata : nat) (Ein Eout : list float) : res float :=
  rbind (Q1 dt Ns ndata Ein) (fun q1 =>
  rbind (Q2 dt Ns ndata Eout) (fun _ =>
  Ok (mean [q1; q1]))).

(** [l=[41.948415859093096,41.948415859093096,41.948415859093096]] *)
Definition l : list float :=
  [of_Q 41.948415859093096; of_Q 41.948415859093096; of_Q 41.948415859093096].

(** [l[i]] for the literal indices the script uses *)
Definition l_at (i : nat) : float := nth i l NaN.

(** [A=l[0]*l[1]], [Vall=A*l[2]] *)
Definition A : float := fmul (l_at 0) (l_at 1).
Definition Vall : float := fmul A (l_at 2).

(** [G=1.6*10**5*Q/deltaT/A] *)
Definition G (Q deltaT A : float) : float :=
  fdiv (fdiv (fmul (fmul (of_Q 1.6) (of_Z (10 ^ 5))) Q) deltaT) A.

(** [Lx=l[0]], [Ly=4.1948415859093096], [Lz=l[2]], [V=Lx*Ly*Lz] *)
Definition Lx : float := l_at 0.
Definition Ly : float := of_Q 4.1948415859093096.
Definition Lz : float := l_at 2.
Definition V : float := fmul (fmul Lx Ly) Lz.

(** [Gc=1.6*10**4*(shc['jwi']+shc['jwo'])/V/deltaT] *)
Definition Gc (shc : Shc) (deltaT : float) : res (list float) :=
  rbind (add (shc_jwi shc) (shc_jwo shc)) (fun s =>
  Ok (div_by (div_by (scale (fmul (of_Q 1.6) (of_Z (10 ^ 4))) s) V) deltaT)).

(** [corr_time=(shc['Ki']+shc['Ko'])/Ly] *)
Definition corr_time (shc : Shc) : res (list float) :=
  rbind (add (shc_Ki shc) (shc_Ko shc)) (fun s => Ok (div_by s Ly)).

Section Writers.

(** [str] of a float64, as [str.format] inserts it for [{}]. *)
Variable str_float : float -> string.

(** ["{} {}".format(a, b)] and ["{} {} {}".format(a, b, c)], on the
    strings of the arguments *)
Definition format2 (a b : string) : string := a ++ " " ++ b.
Definition format3 (a b c : string) : string := a ++ " " ++ b ++ " " ++ c.

(** Lines 27 to 31; the [file.close()] after the [with] block does
    nothing, the block has closed the file. *)
Definition write_TempProfile (temp_ave : list float) : io unit :=
  with_open_w "TempProfile.txt" (
    for_each (range 0 (List.length group_idx)) (fun i =>
      g <-? getitem group_idx (Z.of_nat i) ;;
      x <-? getitem temp_ave (Z.of_nat i) ;;
      writelines (format2 (str_int g) (str_float x)) ;;
      writelines nl)).

(** Lines 36 to 41 *)
Definition EnergyAccumulation_header : string :=
  "t(ps)  Energy-in(Ein)  Energy-out(Eout)".

Definition write_EnergyAccumulation (t Ein Eout : list float) : io unit :=
  with_open_w "EnergyAccumulation.txt" (
    writelines EnergyAccumulation_header ;;
    for_each (range 0 (List.length t)) (fun i =>
      x <-? getitem t (Z.of_nat i) ;;
      a <-? getitem Ein (Z.of_nat i) ;;
      b <-? getitem Eout (Z.of_nat i) ;;
      writelines (format3 (str_float x) (str_float a) (str_float b)) ;;
      writelines nl)).

(** Lines 69 to 74 *)
Definition write_CorrelationTime (shc : Shc) (corr_time : list float) : io unit :=
  with_open_w "CorrelationTime.txt" (
    writelines "correlation time(ps) correlation function(ev/ps)" ;;
    for_each (range 0 (List.length corr_time)) (fun i =>
      x <-? getitem (shc_t shc) (Z.of_nat i) ;;
      y <-? getitem corr_time (Z.of_nat i) ;;
      writelines (format2 (str_float x) (str_float y)) ;;
      writelines nl)).

(** Lines 79 to 84 *)
Definition write_SpectralConductance (shc : Shc) (Gc : list float) : io unit :=
  with_open_w "SpectralConductance.txt" (
    writelines "frequency(THz), Spectral conductance(GW/m^2/K/THz)" ;;
    for_each (range 0 (List.length Gc)) (fun i =>
      x <-? getitem (shc_nu shc) (Z.of_nat i) ;;
      y <-? getitem Gc (Z.of_nat i) ;;
      writelines (format2 (str_float x) (str_float y)) ;;
      writelines nl)).

(** What the script has computed when it ends; [saved_Gc] is the array
    handed to [np.save]. *)
Record outputs : Type := mk_outputs {
  out_temp_ave : list float;
  out_deltaT : float;
  out_Q : float;
  out_G : float;
  out_corr_time : list float;
  saved_Gc : list float
}.

(** The whole script, top to bottom.  The [print] calls and the plot
    window change neither a file nor a value and are left out. *)
Definition script (compute : Compute) (shc : Shc) : io outputs :=
  let T := compute_T compute in
  let Ein := compute_Ein compute in
  let Eout := compute_Eout compute in
  let ndata := ndata T in
  let temp_ave := temp_ave T in
  let t := t dt Ns ndata in
  write_TempProfile temp_ave ;;
  write_EnergyAccumulation t Ein Eout ;;
  deltaT <-? deltaT temp_ave ;;
  Q <-? Q dt Ns ndata Ein Eout ;;
  let G := G Q deltaT A in
  Gc <-? Gc shc deltaT ;;
  corr_time <-? corr_time shc ;;
  write_CorrelationTime shc corr_time ;;
  write_SpectralConductance shc Gc ;;
  ret (mk_outputs temp_ave deltaT Q G corr_time Gc).

End Writers.

End Nemd.

(** ** The specification's wording

    Definitions that follow the words of the specification, to be
    compared with what the script computes. *)

Module Spec.

Import Float Py.

(** [T[i, j]] *)
Definition entry (T : ndarray2) (i j : nat) : float :=
  nth j (nth i (rows T) []) NaN.

(** For every group column except the first, the mean of the column
    over the rows [sel]: one value per retained group. *)
Definition mean_over_rows (sel : list nat) (T : ndarray2) : list float :=
  map (fun g => mean (map (fun i => entry T i g) sel)) (range 1 (ncols T)).

(** "Exactly the second half of the time-step axis": of [n] rows, the
    rows from the middle of the axis on, rows 2 and 3 of 4. *)
Definition second_half (n : nat) : list nat :=
  filter (fun i => n <=? 2 * i) (range 0 n).

Definition steady_state_profile (T : ndarray2) : list float :=
  mean_over_rows (second_half (shape0 T)) T.

(** The rows whose index is strictly greater than [m]. *)
Definition rows_after (m n : nat) : list nat :=
  filter (fun i => m <? i) (range 0 n).

(** "Average the two estimators into a single flux value." *)
Definition heat_flux (dt Ns : float) (ndata : nat) (Ein Eout : list float)
  : res float :=
  rbind (Nemd.Q1 dt Ns ndata Ein) (fun q1 =>
  rbind (Nemd.Q2 dt Ns ndata Eout) (fun q2 =>
  Ok (mean [q1; q2]))).

(** Text made of lines, each ended by a newline. *)
Definition unlines (ls : list string) : string :=
  fold_right (fun s acc => (s ++ nl ++ acc)%string) EmptyString ls.

(** "Header line, then one line per time sample." *)
Definition table (header : string) (samples : list string) : string :=
  unlines (header :: samples).

End Spec.

(** ** One iteration of each write loop

    The text that the body of a write loop puts on the line of index
    [i], or the exception that reading its operands raises. *)

Module LoopRow.

Import Float Py.

Section Rows.

Variable str_float : float -> string.

Definition TempProfile (temp_ave : list float) (i : nat) : res string :=
  rbind (getitem Nemd.group_idx (Z.of_nat i)) (fun g =>
  rbind (getitem temp_ave (Z.of_nat i)) (fun x =>
  Ok (Nemd.format2 (str_int g) (str_float x)))).

Definition EnergyAccumulation (t Ein Eout : list float) (i : nat) : res string :=
  rbind (getitem t (Z.of_nat i)) (fun x =>
  rbind (getitem Ein (Z.of_nat i)) (fun a =>
  rbind (getitem Eout (Z.of_nat i)) (fun b =>
  Ok (Nemd.format3 (str_float x) (str_float a) (str_float b))))).

End Rows.

End LoopRow.

(** ** Sample inputs *)

Module Example.

Import Float Py.

Definition K (z : Z) : float := Nemd.of_Z z.

(** Four samples of three groups: the first column is the reference
    group, the other two heat up and cool down. *)
Definition T4x3 : ndarray2 :=
  {| ncols := 3;
     rows := [ [K 300; K 310; K 290];
               [K 300; K 320; K 280];
               [K 300; K 330; K 270];
               [K 300; K 350; K 250] ] |}.

(** A single sample of three groups. *)
Definition T1x3 : ndarray2 :=
  {| ncols := 3; rows := [ [K 300; K 310; K 290] ] |}.

(** Energies of four samples. *)
Definition Ein4 : list float := map K [0; -1; -2; -3]%Z.
Definition Eout4 : list float := map K [0; 2; 4; 6]%Z.

(** Three samples of eleven groups. *)
Definition T3x11 : ndarray2 :=
  {| ncols := 11;
     rows := [ map K [300; 301; 302; 303; 304; 305; 306; 307; 308; 309; 310];
               map K [300; 311; 312; 313; 314; 315; 316; 317; 318; 319; 320];
               map K [300; 321; 322; 323; 324; 325; 326; 327; 328; 329; 330] ]%Z |}.

(** A stand-in for [str] on floats: a finite value is shown as its
    reduced fraction. *)
Definition show_Z (z : Z) : string := NilZero.string_of_int (Z.to_int z).

Definition str_float (x : float) : string :=
  match x with
  | Fin q => (show_Z (Qnum (this q)) ++ "/" ++ show_Z (Zpos (Qden (this q))))%string
  | Inf false => "inf"%string
  | Inf true => "-inf"%string
  | NaN => "nan"%string
  end.

(** A run that reaches the end of the script: three samples of eleven
    groups, and a spectral series of two bins. *)
Definition compute : Nemd.Compute :=
  {| Nemd.compute_T := T3x11;
     Nemd.compute_Ein := map K [0; -2; -4]%Z;
     Nemd.compute_Eout := map K [0; 2; 5]%Z |}.

Definition shc : Nemd.Shc :=
  {| Nemd.shc_jwi := map K [1; 2]%Z;
     Nemd.shc_jwo := map K [3; 4]%Z;
     Nemd.shc_Ki := map K [5; 6]%Z;
     Nemd.shc_Ko := map K [7; 8]%Z;
     Nemd.shc_t := map K [0; 1]%Z;
     Nemd.shc_nu := map K [0; 10]%Z |}.

End Example.

(** ** File contents, finiteness and further sample inputs *)

Module Report.

Import Float Py.



(** The swap of the forward and the backward components. *)
Definition swap (shc : Nemd.Shc) : Nemd.Shc :=
  {| Nemd.shc_jwi := Nemd.shc_jwo shc;
     Nemd.shc_jwo := Nemd.shc_jwi shc;
     Nemd.shc_Ki := Nemd.shc_Ko shc;
     Nemd.shc_Ko := Nemd.shc_Ki shc;
     Nemd.shc_t := Nemd.shc_t shc;
     Nemd.shc_nu := Nemd.shc_nu shc |}.

Section Texts.

Local Open Scope string_scope.

Variable str_float : float -> string.

(** One iteration of the loops of lines 71 to 73 and 81 to 83: the
    axis entry, then the curve entry. *)
Definition two_columns (axis curve : list float) (i : nat) : res string :=
  rbind (getitem axis (Z.of_nat i)) (fun x =>
  rbind (getitem curve (Z.of_nat i)) (fun y =>
  Ok (Nemd.format2 (str_float x) (str_float y)))).

(** The first [n] rows of each file, as the loops format them. *)
Definition TempProfile_rows (temp_ave : list float) (n : nat) : list string :=
  map (fun i =>
         Nemd.format2 (str_int (i + 1)) (str_float (nth i temp_ave NaN)))
      (seq 0 n).

Definition EnergyAccumulation_rows (t Ein Eout : list float) (n : nat)
  : list string :=
  map (fun i =>
         Nemd.format3 (str_float (nth i t NaN)) (str_float (nth i Ein NaN))
           (str_float (nth i Eout NaN)))
      (seq 0 n).

Definition two_column_rows (axis curve : list float) (n : nat) : list string :=
  map (fun i =>
         Nemd.format2 (str_float (nth i axis NaN)) (str_float (nth i curve NaN)))
      (seq 0 n).

Definition CorrelationTime_header : string :=
  "correlation time(ps) correlation function(ev/ps)".

Definition SpectralConductance_header : string :=
  "frequency(THz), Spectral conductance(GW/m^2/K/THz)".

(** A header followed at once by rows, each ended by a newline. *)
Definition glued (header : string) (rows : list string) : string :=
  header ++ Spec.unlines rows.

End Texts.

(** Two samples of eleven groups. *)
Definition T2x11 : ndarray2 :=
  {| ncols := 11;
     rows := [ map Example.K [300; 301; 302; 303; 304; 305; 306; 307; 308; 309; 310];
               map Example.K [300; 311; 312; 313; 314; 315; 316; 317; 318; 319; 320] ]%Z |}.

Definition compute2 : Nemd.Compute :=
  {| Nemd.compute_T := T2x11;
     Nemd.compute_Ein := map Example.K [0; -2]%Z;
     Nemd.compute_Eout := map Example.K [0; 2]%Z |}.

(** Three samples of eleven groups, with energies for two samples only. *)
Definition compute_short : Nemd.Compute :=
  {| Nemd.compute_T := Example.T3x11;
     Nemd.compute_Ein := map Example.K [0; -2]%Z;
     Nemd.compute_Eout := map Example.K [0; 2; 5]%Z |}.

(** A spectral series whose forward and backward components differ in
    length. *)
Definition shc_ragged : Nemd.Shc :=
  {| Nemd.shc_jwi := map Example.K [1; 2; 3]%Z;
     Nemd.shc_jwo := map Example.K [3; 4]%Z;
     Nemd.shc_Ki := map Example.K [5; 6]%Z;
     Nemd.shc_Ko := map Example.K [7; 8]%Z;
     Nemd.shc_t := map Example.K [0; 1]%Z;
     Nemd.shc_nu := map Example.K [0; 10]%Z |}.

(** A spectral series with a time axis of one entry for curves of two. *)
Definition shc_short_axis : Nemd.Shc :=
  {| Nemd.shc_jwi := map Example.K [1; 2]%Z;
     Nemd.shc_jwo := map Example.K [3; 4]%Z;
     Nemd.shc_Ki := map Example.K [5; 6]%Z;
     Nemd.shc_Ko := map Example.K [7; 8]%Z;
     Nemd.shc_t := map Example.K [0]%Z;
     Nemd.shc_nu := map Example.K [0; 10]%Z |}.

End Report.

(** ** Lines 53 to 57 on binary64 floats

    The scalar arithmetic of the conductance with the rounding of
    float64: the literals are the nearest binary64 values, as Python
    reads them, and every operation rounds to nearest. *)

Module F64.

Import Stdlib.Floats.Floats.
Local Open Scope float_scope.

(** [l=[41.948415859093096,41.948415859093096,41.948415859093096]] *)
Definition l : list float :=
  [41.948415859093096; 41.948415859093096; 41.948415859093096]%list.

(** [A=l[0]*l[1]] *)
Definition A : float := nth 0 l nan * nth 1 l nan.

(** [1.6*10**5]: the int [10**5] becomes the float 100000.0. *)
Definition factor : float := 1.6 * 100000.

(** [G=1.6*10**5*Q/deltaT/A] *)
Definition G (Q deltaT A : float) : float := factor * Q / deltaT / A.




End F64.

(** * Properties *)

Import Float Py.
Local Open Scope nat_scope.

(** ** Signs and scaling of idealised floats *)

Section FloatFacts.

Local Open Scope Qc_scope.

Lemma sgn_num (a : Qc) : sgn a = (Qnum (this a) ?= 0)%Z.
Proof.
  unfold sgn, Qccompare, Qcompare. simpl. now rewrite Z.mul_1_r.
Qed.

Lemma sgn_Q2Qc (q : QArith_base.Q) : sgn (Q2Qc q) = (Qnum q ?= 0)%Z.
Proof.
  unfold sgn, Qccompare. simpl this.
  change 0%Q with (Qred 0). rewrite <- Qred_compare.
  unfold Qcompare. simpl. now rewrite Z.mul_1_r.
Qed.

Lemma Zsign_mul (x y : Z) : (x * y ?= 0)%Z = sign_mul (x ?= 0)%Z (y ?= 0)%Z.
Proof. destruct x, y; reflexivity. Qed.

Lemma sgn_mul (a b : Qc) : sgn (a * b) = sign_mul (sgn a) (sgn b).
Proof.
  unfold Qcmult. rewrite sgn_Q2Qc, !sgn_num. simpl. apply Zsign_mul.
Qed.

Lemma sgn_inv (a : Qc) : sgn (/ a) = sgn a.
Proof.
  unfold Qcinv. rewrite sgn_Q2Qc, sgn_num.
  destruct a as [[[|p|p] d] H]; reflexivity.
Qed.

Lemma sgn_opp (a : Qc) : sgn (- a) = CompOpp (sgn a).
Proof.
  unfold Qcopp. rewrite sgn_Q2Qc, sgn_num.
  destruct a as [[[|p|p] d] H]; reflexivity.
Qed.

Lemma sgn_div (a b : Qc) : sgn (a / b) = sign_mul (sgn a) (sgn b).
Proof. unfold Qcdiv. now rewrite sgn_mul, sgn_inv. Qed.

Lemma sgn_Eq (a : Qc) : sgn a = Eq <-> a = 0.
Proof. unfold sgn. symmetry. apply Qceq_alt. Qed.

Lemma sgn_Gt (a : Qc) : sgn a = Gt <-> 0 < a.
Proof.
  unfold sgn. rewrite Qclt_alt, <- Qcgt_alt. reflexivity.
Qed.

Lemma sgn_nonzero (a : Qc) : sgn a <> Eq -> a <> 0.
Proof. intros H E. apply H. now apply sgn_Eq. Qed.

Lemma Qc_two : Q2Qc (inject_Z 2) = 1 + 1.
Proof. apply Qc_is_canon. reflexivity. Qed.

(** The mean of a value with itself is that value. *)
Lemma mean_pair (x : float) : mean [x; x] = x.
Proof.
  unfold mean, fsum; simpl.
  destruct x as [a|s|]; simpl; trivial.
  - change (sgn (Q2Qc (inject_Z (Z.of_nat 2)))) with Gt. cbv iota. f_equal.
    change (Z.of_nat 2) with 2%Z. rewrite Qc_two. field. discriminate.
  - now rewrite eqb_reflx.
Qed.

End FloatFacts.

Ltac sgn_cases :=
  repeat match goal with
  | |- context [sgn ?a] =>
      is_var a; let E := fresh "E" in destruct (sgn a) eqn:E
  end.

Ltac float_step :=
  simpl; rewrite ?sgn_mul, ?sgn_div, ?sgn_opp;
  repeat match goal with H : sgn _ = _ |- _ => rewrite !H end;
  sgn_cases.

Ltac float_cases :=
  repeat (progress float_step); simpl; try reflexivity; try discriminate.

Ltac nonzero :=
  repeat split;
  match goal with
  | |- ?a <> _ => apply sgn_nonzero; congruence
  end.

(** Multiplying by a positive finite factor commutes with the
    operations of the script, infinities and NaN included. *)
Section Scaling.

Local Open Scope Qc_scope.

Variable k : Qc.
Hypothesis Hk : sgn k = Gt.




End Scaling.

(** ** Indexing *)

Section Indexing.

Context {X : Type}.

Lemma getitem_nat (a : list X) (i : nat) :
  getitem a (Z.of_nat i) =
  match nth_error a i with
  | Some x => Ok x
  | None => Raise IndexError
  end.
Proof.
  unfold getitem.
  destruct (Z.ltb_spec (Z.of_nat i) 0); [lia|].
  rewrite Nat2Z.id.
  destruct (nth_error a i) eqn:E.
  - assert (i < List.length a)%nat by (apply nth_error_Some; congruence).
    destruct (Z.leb_spec 0 (Z.of_nat i)); [|lia].
    destruct (Z.ltb_spec (Z.of_nat i) (Z.of_nat (List.length a))); [|lia].
    reflexivity.
  - destruct (_ && _)%bool; reflexivity.
Qed.

Lemma nth_length_last (a : list X) (x d : X) :
  nth (List.length a) (x :: a) d = last (x :: a) d.
Proof.
  revert x. induction a as [|y a IH]; intro x; [reflexivity|].
  simpl List.length. change (last (x :: y :: a) d) with (last (y :: a) d).
  rewrite <- IH. reflexivity.
Qed.

Lemma getitem_last (a : list X) (d : X) :
  getitem a (-1) =
  match a with
  | [] => Raise IndexError
  | _ :: _ => Ok (last a d)
  end.
Proof.
  unfold getitem. change (-1 <? 0)%Z with true. cbv iota.
  destruct a as [|x a]; [reflexivity|].
  rewrite <- nth_length_last.
  set (n := List.length (x :: a)).
  assert (Hn : n = S (List.length a)) by reflexivity.
  replace (-1 + Z.of_nat n)%Z with (Z.of_nat (List.length a)) by lia.
  destruct (Z.leb_spec 0 (Z.of_nat (List.length a))); [|lia].
  destruct (Z.ltb_spec (Z.of_nat (List.length a)) (Z.of_nat n)); [|lia].
  simpl andb. cbv iota. rewrite Nat2Z.id.
  rewrite (nth_error_nth' (x :: a) d) by (fold n; lia).
  reflexivity.
Qed.

End Indexing.

Lemma getitem_map {X Y} (f : X -> Y) (a : list X) (i : Z) :
  getitem (map f a) i =
  match getitem a i with
  | Ok x => Ok (f x)
  | Raise e => Raise e
  end.
Proof.
  unfold getitem. rewrite length_map.
  destruct (_ && _)%bool; [|reflexivity].
  rewrite nth_error_map.
  destruct (nth_error a _); reflexivity.
Qed.

(** ** The heat flux (lines 49 to 51) *)

Section Flux.

Variable k : Qc.
Hypothesis Hk : sgn k = Gt.





End Flux.

(** Whenever the script gets past line 50, its [Q] is [Q1]. *)
Lemma Q_eq_Q1 (dt Ns : float) (ndata : nat) (Ein Eout : list float) (q2 : float) :
  Nemd.Q2 dt Ns ndata Eout = Ok q2 ->
  Nemd.Q dt Ns ndata Ein Eout = Nemd.Q1 dt Ns ndata Ein.
Proof.
  intro H2. unfold Nemd.Q. rewrite H2.
  destruct (Nemd.Q1 dt Ns ndata Ein) as [q1|e]; simpl; [|reflexivity].
  now rewrite mean_pair.
Qed.



(** C2. On four samples with [Ein = 0, -1, -2, -3] and
    [Eout = 0, 2, 4, 6] the two estimators are [Q1 = 1/2] and [Q2 = 1];
    their mean is [3/4], but the script's [Q] is [1/2]: line 51
    averages [Q1] with itself and never reads [Q2]. *)
Theorem Q_averages_Q1_with_itself :
  let Ein := Example.Ein4 in
  let Eout := Example.Eout4 in
  Nemd.Q1 Nemd.dt Nemd.Ns 4 Ein = Ok (of_Q 0.5)
  /\ Nemd.Q2 Nemd.dt Nemd.Ns 4 Eout = Ok (of_Q 1)
  /\ Spec.heat_flux Nemd.dt Nemd.Ns 4 Ein Eout = Ok (of_Q 0.75)
  /\ Nemd.Q Nemd.dt Nemd.Ns 4 Ein Eout = Ok (of_Q 0.5)
  /\ Nemd.Q Nemd.dt Nemd.Ns 4 Ein Eout <> Spec.heat_flux Nemd.dt Nemd.Ns 4 Ein Eout.
Proof.
  intros Ein Eout.
  assert (H1 : Nemd.Q1 Nemd.dt Nemd.Ns 4 Ein = Ok (of_Q 0.5))
    by (vm_compute; do 2 f_equal; now apply Qc_is_canon).
  assert (H2 : Nemd.Q2 Nemd.dt Nemd.Ns 4 Eout = Ok (of_Q 1))
    by (vm_compute; do 2 f_equal; now apply Qc_is_canon).
  assert (H3 : Spec.heat_flux Nemd.dt Nemd.Ns 4 Ein Eout = Ok (of_Q 0.75))
    by (vm_compute; do 2 f_equal; now apply Qc_is_canon).
  assert (H4 : Nemd.Q Nemd.dt Nemd.Ns 4 Ein Eout = Ok (of_Q 0.5))
    by (rewrite (@Q_eq_Q1 _ _ _ Ein _ _ H2); exact H1).
  repeat split; trivial.
  rewrite H3, H4. intro H. injection H as H. discriminate H.
Qed.

(** ** The steady-state temperature profile (line 17) *)

Section Windows.

Lemma filter_from_seq (c a len : nat) :
  filter (fun i => c <=? i) (seq a len) =
  seq (Nat.max a c) (a + len - Nat.max a c).
Proof.
  revert a. induction len as [|len IH]; intro a.
  - simpl. replace (a + 0 - Nat.max a c) with 0 by lia. reflexivity.
  - simpl filter. rewrite IH. destruct (Nat.leb_spec c a) as [Hc|Hc].
    + replace (Nat.max a c) with a by lia.
      replace (Nat.max (S a) c) with (S a) by lia.
      replace (a + S len - a) with (S len) by lia.
      replace (S a + len - S a) with len by lia. reflexivity.
    + replace (Nat.max a c) with c by lia.
      replace (Nat.max (S a) c) with c by lia.
      f_equal. lia.
Qed.

(** The rows after index [m] are the rows [m+1 .. n-1]. *)
Lemma rows_after_seq (m n : nat) :
  Spec.rows_after m n = seq (m + 1) (n - m - 1).
Proof.
  unfold Spec.rows_after, range, Nat.ltb. rewrite filter_from_seq.
  replace (Nat.max 0 (S m)) with (m + 1) by lia. f_equal. lia.
Qed.

(** The second half of [n] rows is the rows [ceil(n/2) .. n-1]. *)
Lemma second_half_seq (n : nat) :
  Spec.second_half n = seq ((n + 1) / 2) (n - (n + 1) / 2).
Proof.
  unfold Spec.second_half, range.
  rewrite (filter_ext _ (fun i => (n + 1) / 2 <=? i)).
  - rewrite filter_from_seq.
    replace (Nat.max 0 ((n + 1) / 2)) with ((n + 1) / 2) by lia.
    f_equal. lia.
  - intro i. destruct (Nat.leb_spec n (2 * i)), (Nat.leb_spec ((n + 1) / 2) i);
      trivial; exfalso.
    + assert (n + 1 <= 2 * i + 1) by lia.
      assert ((n + 1) / 2 <= (2 * i + 1) / 2) by (apply Nat.Div0.div_le_mono; lia).
      replace ((2 * i + 1) / 2) with i in *; [lia|].
      apply (Nat.div_unique (2 * i + 1) 2 i 1); lia.
    + pose proof (Nat.div_mod_eq (n + 1) 2).
      pose proof (Nat.mod_upper_bound (n + 1) 2). lia.
Qed.

(** For an odd number of rows the rows after the midpoint index are the
    second half; for an even number the second half has one row more,
    the midpoint row itself. *)
Lemma second_half_rows_after (n : nat) :
  0 < n ->
  Spec.second_half n =
  if Nat.even n
  then Nemd.mid n :: Spec.rows_after (Nemd.mid n) n
  else Spec.rows_after (Nemd.mid n) n.
Proof.
  intro Hn. rewrite second_half_seq, rows_after_seq. unfold Nemd.mid.
  pose proof (Nat.div_mod_eq n 2) as Hd.
  pose proof (Nat.mod_upper_bound n 2) as Hm.
  destruct (Nat.even n) eqn:E.
  - apply Nat.even_spec in E. destruct E as [p ->].
    replace (2 * p / 2) with p
      by (apply (Nat.div_unique (2 * p) 2 p 0); lia).
    replace ((2 * p + 1) / 2) with p
      by (apply (Nat.div_unique (2 * p + 1) 2 p 1); lia).
    replace (2 * p - p) with (S (2 * p - p - 1)) by lia.
    rewrite <- cons_seq. f_equal. f_equal; lia.
  - assert (Ho : Nat.odd n = true) by (rewrite <- Nat.negb_even, E; reflexivity).
    apply Nat.odd_spec in Ho. destruct Ho as [p ->].
    replace ((2 * p + 1) / 2) with p
      by (apply (Nat.div_unique (2 * p + 1) 2 p 1); lia).
    replace ((2 * p + 1 + 1) / 2) with (p + 1)
      by (apply (Nat.div_unique (2 * p + 1 + 1) 2 (p + 1) 0); lia).
    f_equal. lia.
Qed.

End Windows.

Section Slices.

Context {X : Type}.

Lemma map_nth_seq_skipn (d : X) (l : list X) (a : nat) :
  map (fun i => nth i l d) (seq a (List.length l - a)) = skipn a l.
Proof.
  revert a. induction l as [|x l IH]; intro a.
  - destruct a; reflexivity.
  - destruct a as [|a].
    + simpl. f_equal. rewrite <- seq_shift, map_map.
      specialize (IH 0). rewrite Nat.sub_0_r in IH. exact IH.
    + simpl List.length. simpl Nat.sub. rewrite <- seq_shift, map_map.
      apply IH.
Qed.

Lemma nth_skipn_1 (d : X) (r : list X) (j : nat) :
  nth j (skipn 1 r) d = nth (S j) r d.
Proof. destruct r as [|x r]; [destruct j|]; reflexivity. Qed.

End Slices.

(** What line 17 computes, for every table: the means, per column
    [1 .. ncols-1], over the rows [mid+1 .. ndata-1]. *)
Lemma temp_ave_mean_over_rows (T : ndarray2) :
  Nemd.temp_ave T =
  Spec.mean_over_rows
    (Spec.rows_after (Nemd.mid (shape0 T)) (shape0 T)) T.
Proof.
  unfold Nemd.temp_ave, mean_axis0, Spec.mean_over_rows, range, Nemd.ndata.
  cbn [ncols slice_from]. rewrite <- seq_shift, map_map.
  apply map_ext. intro j. f_equal.
  unfold column. cbn [rows slice_from]. rewrite map_map.
  rewrite rows_after_seq. unfold Spec.entry, shape0.
  rewrite <- (map_nth_seq_skipn [] (rows T) (Nemd.mid _ + 1)).
  rewrite map_map, Nat.sub_add_distr.
  apply map_ext. intro i. apply nth_skipn_1.
Qed.

Lemma length_temp_ave (T : ndarray2) :
  List.length (Nemd.temp_ave T) = ncols T - 1.
Proof.
  unfold Nemd.temp_ave, mean_axis0. now rewrite length_map, length_seq.
Qed.

(** C1, as the code has it.  For a table of more than 2 samples and
    more than 2 groups, [temp_ave] holds, for each group column except
    the first, the mean over the rows whose index is strictly greater
    than the midpoint index [ndata/2] (rounded down), that is the rows
    [ndata/2+1 .. ndata-1], of which there is at least one; there is one
    value per retained group.  When [ndata] is odd these rows are
    exactly the second half of the time-step axis. *)
Theorem temp_ave_rows_after_midpoint (T : ndarray2) :
  2 < shape0 T -> 2 < ncols T ->
  Nemd.temp_ave T =
    Spec.mean_over_rows (Spec.rows_after (shape0 T / 2) (shape0 T)) T
  /\ Spec.rows_after (shape0 T / 2) (shape0 T) =
       seq (shape0 T / 2 + 1) (shape0 T - shape0 T / 2 - 1)
  /\ 0 < shape0 T - shape0 T / 2 - 1
  /\ List.length (Nemd.temp_ave T) = ncols T - 1
  /\ (Nat.odd (shape0 T) = true ->
      Nemd.temp_ave T = Spec.steady_state_profile T).
Proof.
  intros Hn Hc. repeat split.
  - apply temp_ave_mean_over_rows.
  - apply rows_after_seq.
  - pose proof (Nat.div_mod_eq (shape0 T) 2).
    pose proof (Nat.mod_upper_bound (shape0 T) 2 ltac:(lia)). lia.
  - apply length_temp_ave.
  - intro Ho. rewrite temp_ave_mean_over_rows. unfold Spec.steady_state_profile.
    rewrite second_half_rows_after by lia.
    rewrite <- Nat.negb_odd, Ho. reflexivity.
Qed.

Lemma temp_ave_rows_after_midpoint_witness :
  2 < shape0 Example.T4x3 /\ 2 < ncols Example.T4x3
  /\ Nemd.temp_ave Example.T4x3 =
     Spec.mean_over_rows (Spec.rows_after (4 / 2) 4) Example.T4x3.
Proof.
  assert (Hn : 2 < shape0 Example.T4x3) by (vm_compute; lia).
  assert (Hc : 2 < ncols Example.T4x3) by (vm_compute; lia).
  split; [exact Hn|]. split; [exact Hc|].
  exact (proj1 (temp_ave_rows_after_midpoint Example.T4x3 Hn Hc)).
Defined.

(** C1, as the specification words it, fails on four samples of three
    groups: the second half of the axis is rows 2 and 3, with means 340
    and 260, while [temp_ave] averages row 3 alone. *)
Lemma temp_ave_second_half_counterexample :
  2 < shape0 Example.T4x3 /\ 2 < ncols Example.T4x3
  /\ Spec.steady_state_profile Example.T4x3 = [Example.K 340; Example.K 260]
  /\ Nemd.temp_ave Example.T4x3 = [Example.K 350; Example.K 250]
  /\ Nemd.temp_ave Example.T4x3 <> Spec.steady_state_profile Example.T4x3.
Proof.
  assert (Hs : Spec.steady_state_profile Example.T4x3 =
               [Example.K 340; Example.K 260])
    by (vm_compute; repeat (f_equal; try now apply Qc_is_canon)).
  assert (Hc : Nemd.temp_ave Example.T4x3 = [Example.K 350; Example.K 250])
    by (vm_compute; repeat (f_equal; try now apply Qc_is_canon)).
  split; [vm_compute; lia|]. split; [vm_compute; lia|].
  split; [exact Hs|]. split; [exact Hc|].
  rewrite Hs, Hc. intro H. injection H as H _. discriminate H.
Qed.

(** ** Too few samples *)

Lemma map_const_repeat {X Y} (y : Y) (l : list X) :
  map (fun _ => y) l = repeat y (List.length l).
Proof. induction l as [|x l IH]; simpl; now rewrite ?IH. Qed.

Lemma mean_nil : mean [] = NaN.
Proof. reflexivity. Qed.

(** C8. With fewer than 2 samples the window [T[int(ndata/2)+1:, 1:]]
    has no row; [temp_ave] is then computed all the same, and every one
    of its entries, one per retained group, is NaN. *)
Theorem temp_ave_short_series_is_nan (T : ndarray2) :
  shape0 T < 2 ->
  rows (slice_from (Nemd.mid (Nemd.ndata T) + 1) 1 T) = []
  /\ Nemd.temp_ave T = repeat NaN (ncols T - 1).
Proof.
  intro Hn. unfold Nemd.temp_ave, Nemd.ndata, Nemd.mid.
  assert (E : rows (slice_from (shape0 T / 2 + 1) 1 T) = []).
  { unfold shape0 in *. cbn [rows slice_from].
    destruct (rows T) as [|r [|r' rs]]; simpl in *; trivial. lia. }
  split; [exact E|].
  unfold mean_axis0, column. rewrite E. cbn [map ncols slice_from].
  rewrite mean_nil, map_const_repeat, length_seq. reflexivity.
Qed.

Lemma temp_ave_short_series_is_nan_witness :
  shape0 Example.T1x3 < 2 /\ Nemd.temp_ave Example.T1x3 = [NaN; NaN].
Proof.
  assert (Hn : shape0 Example.T1x3 < 2) by (vm_compute; lia).
  split; [exact Hn|].
  exact (proj2 (temp_ave_short_series_is_nan Example.T1x3 Hn)).
Defined.

(** ** Text *)

Section Text.

Local Open Scope string_scope.

Lemma append_assoc (a b c : string) : (a ++ b) ++ c = a ++ b ++ c.
Proof. induction a as [|x a IH]; simpl; now rewrite ?IH. Qed.

Lemma append_nil_r (a : string) : a ++ "" = a.
Proof. induction a as [|x a IH]; simpl; now rewrite ?IH. Qed.

Lemma length_append (a b : string) :
  String.length (a ++ b) = String.length a + String.length b.
Proof. induction a as [|x a IH]; simpl; now rewrite ?IH. Qed.

Lemma unlines_app (l1 l2 : list string) :
  Spec.unlines (l1 ++ l2) = Spec.unlines l1 ++ Spec.unlines l2.
Proof.
  induction l1 as [|s l1 IH]; simpl; [reflexivity|].
  now rewrite IH, !append_assoc.
Qed.

End Text.

(** ** Write loops

    A loop whose body either raises or appends one line and a newline
    writes the lines up to the first index whose line raises. *)

Section WriteLoop.

Local Open Scope string_scope.

Variable line : nat -> res string.
Variable body : nat -> file unit.

Hypothesis body_line : forall i c,
  body i c =
  match line i with
  | Ok s => ((c ++ s) ++ nl, Ok tt)
  | Raise e => (c, Raise e)
  end.

Lemma loop_all_written (s : nat -> string) (idxs : list nat) (c : string) :
  (forall i, In i idxs -> line i = Ok (s i)) ->
  for_each idxs body c = (c ++ Spec.unlines (map s idxs), Ok tt).
Proof.
  revert c. induction idxs as [|i idxs IH]; intros c H.
  - simpl. now rewrite append_nil_r.
  - cbn [for_each]. unfold bind at 1. rewrite body_line, (H i) by now left.
    rewrite IH by (intros j Hj; apply H; now right).
    simpl. now rewrite !append_assoc.
Qed.

Lemma loop_stops_at_raise (s : nat -> string) (pre post : list nat)
      (i : nat) (e : exn) (c : string) :
  (forall j, In j pre -> line j = Ok (s j)) ->
  line i = Raise e ->
  for_each (pre ++ i :: post) body c =
  (c ++ Spec.unlines (map s pre), Raise e).
Proof.
  revert c. induction pre as [|j pre IH]; intros c H Hi.
  - cbn [app for_each]. unfold bind. rewrite body_line, Hi.
    simpl. now rewrite append_nil_r.
  - cbn [app for_each]. unfold bind at 1. rewrite body_line, (H j) by now left.
    rewrite IH by (trivial; intros j' Hj; apply H; now right).
    simpl. now rewrite !append_assoc.
Qed.

End WriteLoop.

(** ** TempProfile.txt (lines 25 to 31) *)

Lemma getitem_group_idx (i : nat) :
  i < 9 -> getitem Nemd.group_idx (Z.of_nat i) = Ok (i + 1).
Proof.
  intro Hi. rewrite getitem_nat. unfold Nemd.group_idx, range.
  rewrite (nth_error_nth' _ 0) by (rewrite length_seq; simpl; lia).
  rewrite seq_nth by (simpl; lia). f_equal. lia.
Qed.

Lemma getitem_in_range {X} (a : list X) (d : X) (i : nat) :
  i < List.length a -> getitem a (Z.of_nat i) = Ok (nth i a d).
Proof.
  intro Hi. rewrite getitem_nat. now rewrite (nth_error_nth' _ d).
Qed.

Lemma getitem_out_of_range {X} (a : list X) (i : nat) :
  List.length a <= i -> getitem a (Z.of_nat i) = Raise IndexError.
Proof.
  intro Hi. rewrite getitem_nat.
  now replace (nth_error a i) with (@None X)
    by (symmetry; now apply nth_error_None).
Qed.

Section TempProfile.

Local Open Scope string_scope.

Variable str_float : float -> string.

Lemma TempProfile_body (ta : list float) (i : nat) (c : string) :
  bind (lift (getitem Nemd.group_idx (Z.of_nat i))) (fun g =>
  bind (lift (getitem ta (Z.of_nat i))) (fun x =>
  bind (writelines (Nemd.format2 (str_int g) (str_float x))) (fun _ =>
  writelines nl))) c =
  match LoopRow.TempProfile str_float ta i with
  | Ok s => ((c ++ s) ++ nl, Ok tt)
  | Raise e => (c, Raise e)
  end.
Proof.
  unfold LoopRow.TempProfile, bind, lift, writelines.
  destruct (getitem Nemd.group_idx _); [|reflexivity].
  destruct (getitem ta _); reflexivity.
Qed.

(** The line of index [i] as the loop formats it. *)
Lemma write_TempProfile_nine (ta : list float) (fs : files) :
  9 <= List.length ta ->
  Nemd.write_TempProfile str_float ta fs =
  (put "TempProfile.txt"
     (Spec.unlines
        (map (fun i => Nemd.format2 (str_int (i + 1)) (str_float (nth i ta NaN)))
             (seq 0 9))) fs,
   Ok tt).
Proof.
  intro Hlen. unfold Nemd.write_TempProfile, with_open_w.
  change (range 0 (List.length Nemd.group_idx)) with (seq 0 9).
  rewrite (@loop_all_written _ _ (TempProfile_body ta)
             (fun i => Nemd.format2 (str_int (i + 1)) (str_float (nth i ta NaN)))).
  - reflexivity.
  - intros i Hi. apply in_seq in Hi. unfold LoopRow.TempProfile.
    rewrite getitem_group_idx by lia.
    rewrite (getitem_in_range _ NaN) by lia. reflexivity.
Qed.

Lemma write_TempProfile_partial (ta : list float) (fs : files) :
  List.length ta < 9 ->
  Nemd.write_TempProfile str_float ta fs =
  (put "TempProfile.txt"
     (Spec.unlines
        (map (fun i => Nemd.format2 (str_int (i + 1)) (str_float (nth i ta NaN)))
             (seq 0 (List.length ta)))) fs,
   Raise IndexError).
Proof.
  intro Hlen. unfold Nemd.write_TempProfile, with_open_w.
  change (range 0 (List.length Nemd.group_idx)) with (seq 0 9).
  set (m := List.length ta) in *.
  replace (seq 0 9) with (seq 0 m ++ m :: seq (S m) (9 - S m))%list
    by (rewrite cons_seq, <- seq_app; f_equal; lia).
  rewrite (@loop_stops_at_raise _ _ (TempProfile_body ta)
             (fun i => Nemd.format2 (str_int (i + 1)) (str_float (nth i ta NaN)))
             (seq 0 m) _ m IndexError).
  - reflexivity.
  - intros i Hi. apply in_seq in Hi. unfold LoopRow.TempProfile.
    rewrite getitem_group_idx by lia.
    rewrite (getitem_in_range _ NaN) by (fold m; lia). reflexivity.
  - unfold LoopRow.TempProfile. rewrite getitem_group_idx by lia.
    rewrite getitem_out_of_range by (fold m; lia). reflexivity.
Qed.

(** X18. With fewer than 10 group columns the script ends at line 29:
    it raises [IndexError] and touches no file but TempProfile.txt. *)
Lemma script_stops_at_TempProfile
      (compute : Nemd.Compute) (shc : Nemd.Shc) (fs : files) :
  ncols (Nemd.compute_T compute) < 10 ->
  snd (Nemd.script str_float compute shc fs) = Raise IndexError
  /\ forall path, path <> "TempProfile.txt" ->
       fst (Nemd.script str_float compute shc fs) path = fs path.
Proof.
  intro Hc.
  assert (E : exists text,
             Nemd.script str_float compute shc fs =
             (put "TempProfile.txt" text fs, Raise IndexError)).
  { unfold Nemd.script. unfold bind at 1.
    rewrite write_TempProfile_partial by (rewrite length_temp_ave; lia).
    eexists. reflexivity. }
  destruct E as [text ->]. split; [reflexivity|].
  intros path Hp. cbn [fst]. unfold put.
  destruct (String.eqb_spec path "TempProfile.txt"); [contradiction|reflexivity].
Qed.

(** C10. The writer of TempProfile.txt runs over the group indices 1
    to 9.  Given a table of at least 10 group columns it writes 9 lines,
    index [i+1] with the [i]-th retained average, whatever the number of
    further groups; given fewer than 10 columns it raises [IndexError]
    at the first index that has no average, and the file keeps the
    lines written until then, one per retained group. *)
Theorem TempProfile_nine_lines_or_IndexError
  (T : ndarray2) (fs : files) :
  let line i :=
    Nemd.format2 (str_int (i + 1)) (str_float (nth i (Nemd.temp_ave T) NaN)) in
  (10 <= ncols T ->
   Nemd.write_TempProfile str_float (Nemd.temp_ave T) fs =
   (put "TempProfile.txt" (Spec.unlines (map line (seq 0 9))) fs, Ok tt))
  /\ (ncols T < 10 ->
      Nemd.write_TempProfile str_float (Nemd.temp_ave T) fs =
      (put "TempProfile.txt"
           (Spec.unlines (map line (seq 0 (ncols T - 1)))) fs,
       Raise IndexError)).
Proof.
  intro line. pose proof (length_temp_ave T) as Hlen. split; intro Hc.
  - apply write_TempProfile_nine. lia.
  - rewrite write_TempProfile_partial by lia. now rewrite Hlen.
Qed.

End TempProfile.

Lemma TempProfile_nine_lines_or_IndexError_witness :
  (10 <= ncols Example.T3x11
   /\ Nemd.write_TempProfile Example.str_float
        (Nemd.temp_ave Example.T3x11) no_files =
      (put "TempProfile.txt"
         (Spec.unlines
            (map (fun i =>
                    Nemd.format2 (str_int (i + 1))
                      (Example.str_float
                         (nth i (Nemd.temp_ave Example.T3x11) NaN)))
                 (seq 0 9)))
         no_files, Ok tt))
  /\ (ncols Example.T4x3 < 10
      /\ Nemd.write_TempProfile Example.str_float
           (Nemd.temp_ave Example.T4x3) no_files =
         (put "TempProfile.txt"
            (Spec.unlines
               (map (fun i =>
                       Nemd.format2 (str_int (i + 1))
                         (Example.str_float
                            (nth i (Nemd.temp_ave Example.T4x3) NaN)))
                    (seq 0 2)))
            no_files, Raise IndexError)).
Proof.
  assert (H11 : 10 <= ncols Example.T3x11) by (vm_compute; lia).
  assert (H3 : ncols Example.T4x3 < 10) by (vm_compute; lia).
  split; (split; [assumption|]).
  - exact (proj1 (TempProfile_nine_lines_or_IndexError
                    Example.str_float Example.T3x11 no_files) H11).
  - exact (proj2 (TempProfile_nine_lines_or_IndexError
                    Example.str_float Example.T4x3 no_files) H3).
Defined.

(** What the run on four samples of three groups leaves in
    TempProfile.txt: the two retained groups, then the [IndexError]. *)
Example TempProfile_T4x3 :
  let r := Nemd.write_TempProfile Example.str_float
             (Nemd.temp_ave Example.T4x3) no_files in
  fst r "TempProfile.txt"%string = Some ("1 350/1" ++ nl ++ "2 250/1" ++ nl)%string
  /\ snd r = Raise IndexError.
Proof. split; reflexivity. Qed.

(** ** EnergyAccumulation.txt (lines 36 to 41) *)

Section EnergyAccumulation.

Local Open Scope string_scope.

Variable str_float : float -> string.

Lemma EnergyAccumulation_body (t Ein Eout : list float) (i : nat) (c : string) :
  bind (lift (getitem t (Z.of_nat i))) (fun x =>
  bind (lift (getitem Ein (Z.of_nat i))) (fun a =>
  bind (lift (getitem Eout (Z.of_nat i))) (fun b =>
  bind (writelines
          (Nemd.format3 (str_float x) (str_float a) (str_float b))) (fun _ =>
  writelines nl)))) c =
  match LoopRow.EnergyAccumulation str_float t Ein Eout i with
  | Ok s => ((c ++ s) ++ nl, Ok tt)
  | Raise e => (c, Raise e)
  end.
Proof.
  unfold LoopRow.EnergyAccumulation, bind, lift, writelines.
  destruct (getitem t _); [|reflexivity].
  destruct (getitem Ein _); [|reflexivity].
  destruct (getitem Eout _); reflexivity.
Qed.

(** With an energy entry for every sample, the file is the header
    followed at once by the samples, each ended by a newline: nothing
    separates the header from the first sample. *)
Lemma write_EnergyAccumulation_text (t Ein Eout : list float) (fs : files) :
  List.length t <= List.length Ein ->
  List.length t <= List.length Eout ->
  Nemd.write_EnergyAccumulation str_float t Ein Eout fs =
  (put "EnergyAccumulation.txt"
     (Nemd.EnergyAccumulation_header ++
      Spec.unlines
        (map (fun i =>
                Nemd.format3 (str_float (nth i t NaN))
                  (str_float (nth i Ein NaN)) (str_float (nth i Eout NaN)))
             (seq 0 (List.length t))))
     fs, Ok tt).
Proof.
  intros Hi Ho. unfold Nemd.write_EnergyAccumulation, with_open_w.
  unfold bind at 1. unfold writelines at 1. unfold range.
  rewrite Nat.sub_0_r.
  rewrite (@loop_all_written _ _ (EnergyAccumulation_body t Ein Eout)
             (fun i =>
                Nemd.format3 (str_float (nth i t NaN))
                  (str_float (nth i Ein NaN)) (str_float (nth i Eout NaN)))).
  - reflexivity.
  - intros i Hin. apply in_seq in Hin. unfold LoopRow.EnergyAccumulation.
    rewrite (getitem_in_range t NaN), (getitem_in_range Ein NaN),
      (getitem_in_range Eout NaN) by lia.
    reflexivity.
Qed.

Lemma glued_header_is_not_a_table (header : string) (samples : list string) :
  header ++ Spec.unlines samples <> Spec.table header samples.
Proof.
  intro H. apply (f_equal String.length) in H.
  unfold Spec.table in H. cbn [Spec.unlines fold_right] in H.
  fold (Spec.unlines samples) in H.
  rewrite !length_append in H. simpl in H. lia.
Qed.

(** C5. On the four samples 0.001 to 0.004 with [Ein = 0, -1, -2, -3]
    and [Eout = 0, 2, 4, 6] the writer leaves in EnergyAccumulation.txt
    the header immediately followed by the first sample, with no
    newline between them, then the other samples: the text is not the
    header line followed by one line per sample. *)
Theorem EnergyAccumulation_header_not_on_its_own_line (fs : files) :
  let t := Nemd.t Nemd.dt Nemd.Ns 4 in
  let sample i :=
    Nemd.format3 (str_float (nth i t NaN))
      (str_float (nth i Example.Ein4 NaN))
      (str_float (nth i Example.Eout4 NaN)) in
  let samples := [sample 0; sample 1; sample 2; sample 3] in
  Nemd.write_EnergyAccumulation str_float t Example.Ein4 Example.Eout4 fs =
    (put "EnergyAccumulation.txt"
       (Nemd.EnergyAccumulation_header ++ sample 0 ++ nl ++ sample 1 ++ nl
        ++ sample 2 ++ nl ++ sample 3 ++ nl) fs,
     Ok tt)
  /\ Nemd.EnergyAccumulation_header ++ Spec.unlines samples <>
     Spec.table Nemd.EnergyAccumulation_header samples.
Proof.
  intros t sample samples. split.
  - rewrite write_EnergyAccumulation_text by (vm_compute; lia).
    change (List.length t) with 4. cbn [seq map Spec.unlines fold_right].
    rewrite append_nil_r. reflexivity.
  - apply glued_header_is_not_a_table.
Qed.

End EnergyAccumulation.

(** ** The script as a whole *)

Ltac step_script H :=
  match type of H with
  | context [match ?m with _ => _ end] =>
      let E := fresh "E" in
      destruct m as [? [?|?]] eqn:E; cbn [snd fst] in H; try discriminate H
  end.

(** When the script runs to its end, its values are those of the
    definitions above, chained as in the source. *)
Lemma script_outputs (str_float : float -> string)
      (compute : Nemd.Compute) (shc : Nemd.Shc) (fs : files)
      (out : Nemd.outputs) :
  snd (Nemd.script str_float compute shc fs) = Ok out ->
  let T := Nemd.compute_T compute in
  Nemd.out_temp_ave out = Nemd.temp_ave T
  /\ Nemd.deltaT (Nemd.temp_ave T) = Ok (Nemd.out_deltaT out)
  /\ Nemd.Q Nemd.dt Nemd.Ns (Nemd.ndata T)
       (Nemd.compute_Ein compute) (Nemd.compute_Eout compute) =
     Ok (Nemd.out_Q out)
  /\ Nemd.out_G out = Nemd.G (Nemd.out_Q out) (Nemd.out_deltaT out) Nemd.A
  /\ Nemd.Gc shc (Nemd.out_deltaT out) = Ok (Nemd.saved_Gc out)
  /\ Nemd.corr_time shc = Ok (Nemd.out_corr_time out).
Proof.
  unfold Nemd.script. intro H. unfold bind, lift, ret in H.
  do 2 step_script H.
  destruct (Nemd.deltaT _) as [dT|] eqn:EdT; [|discriminate H].
  destruct (Nemd.Q _ _ _ _ _) as [q|] eqn:Eq; [|discriminate H].
  destruct (Nemd.Gc _ _) as [gc|] eqn:Egc; [|discriminate H].
  destruct (Nemd.corr_time _) as [ct|] eqn:Ect; [|discriminate H].
  do 2 step_script H.
  cbn [snd] in H. injection H as <-. cbn.
  repeat split; trivial.
Qed.

(** ** Thermal conductance (lines 48 to 57) *)


Lemma conversion_factor_Gc :
  fmul (of_Q 1.6) (Nemd.of_Z (10 ^ 4)) = Nemd.of_Z 16000.
Proof. unfold fmul, of_Q, Nemd.of_Z. f_equal. now apply Qc_is_canon. Qed.

Lemma deltaT_first_last (first : float) (rest : list float) :
  Nemd.deltaT (first :: rest) = Ok (fsub first (last (first :: rest) NaN)).
Proof.
  unfold Nemd.deltaT. rewrite (getitem_last _ NaN).
  change 0%Z with (Z.of_nat 0). rewrite getitem_nat. reflexivity.
Qed.





(** ** The spectral curves (lines 59 to 68) *)

Section Elementwise.

Context {X Y W : Type} (f : X -> Y -> W).

Lemma length_zip_with (a : list X) (b : list Y) :
  List.length a = List.length b ->
  List.length (zip_with f a b) = List.length a.
Proof.
  revert b. induction a as [|x a IH]; intros [|y b] H; simpl in *;
    try discriminate; auto.
Qed.

Lemma nth_zip_with (a : list X) (b : list Y) (i : nat) (dx : X) (dy : Y) (dw : W) :
  i < List.length a -> i < List.length b ->
  nth i (zip_with f a b) dw = f (nth i a dx) (nth i b dy).
Proof.
  revert b i. induction a as [|x a IH]; intros [|y b] [|i] Ha Hb;
    simpl in *; try lia; trivial.
  apply IH; lia.
Qed.

End Elementwise.

Lemma add_same_length (a b : list float) :
  List.length a = List.length b -> add a b = Ok (zip_with fadd a b).
Proof. intro H. unfold add. now rewrite H, Nat.eqb_refl. Qed.

Lemma nth_map_in_range {X Y} (f : X -> Y) (l : list X) (i : nat) (dx : X) (dy : Y) :
  i < List.length l -> nth i (map f l) dy = f (nth i l dx).
Proof.
  intro H. rewrite (nth_indep _ dy (f dx)) by now rewrite length_map.
  apply map_nth.
Qed.

Lemma Ly_is_not_l1 : Nemd.Ly <> Nemd.l_at 1.
Proof. intro H. vm_compute in H. injection H as H. discriminate H. Qed.

Lemma V_is_not_Vall : Nemd.V <> Nemd.Vall.
Proof. intro H. vm_compute in H. injection H as H. discriminate H. Qed.

(** C4. For a spectral series whose kernel arrays and whose
    frequency-domain arrays pair up in length, entry [i] of the
    correlation-time curve is [(Ki[i] + Ko[i]) / Ly], and entry [i] of
    [Gc] is [16000 * (jwi[i] + jwo[i]) / V / deltaT], where
    [V = l[0] * Ly * l[2]] is taken with the literal
    [Ly = 4.1948415859093096], which is not the [l[1]] that the area
    [A = l[0] * l[1]] uses; so [V] is not the cell volume [Vall]. *)
Theorem spectral_curves_elementwise (shc : Nemd.Shc) (dT : float) :
  List.length (Nemd.shc_Ki shc) = List.length (Nemd.shc_Ko shc) ->
  List.length (Nemd.shc_jwi shc) = List.length (Nemd.shc_jwo shc) ->
  exists ct gc,
    Nemd.corr_time shc = Ok ct
    /\ Nemd.Gc shc dT = Ok gc
    /\ (forall i, i < List.length (Nemd.shc_Ki shc) ->
        nth i ct NaN =
        fdiv (fadd (nth i (Nemd.shc_Ki shc) NaN) (nth i (Nemd.shc_Ko shc) NaN))
             Nemd.Ly)
    /\ (forall i, i < List.length (Nemd.shc_jwi shc) ->
        nth i gc NaN =
        fdiv (fdiv (fmul (Nemd.of_Z 16000)
                         (fadd (nth i (Nemd.shc_jwi shc) NaN)
                               (nth i (Nemd.shc_jwo shc) NaN)))
                   Nemd.V) dT)
    /\ Nemd.V = fmul (fmul (Nemd.l_at 0) (of_Q 4.1948415859093096)) (Nemd.l_at 2)
    /\ Nemd.A = fmul (Nemd.l_at 0) (Nemd.l_at 1)
    /\ of_Q 4.1948415859093096 <> Nemd.l_at 1
    /\ Nemd.V <> Nemd.Vall.
Proof.
  intros HK Hj. unfold Nemd.corr_time, Nemd.Gc.
  rewrite (add_same_length _ _ HK), (add_same_length _ _ Hj). cbn [rbind].
  eexists. eexists. split; [reflexivity|]. split; [reflexivity|].
  split; [|split; [|split; [|split; [|split]]]].
  - intros i Hi. unfold div_by.
    rewrite (nth_map_in_range _ _ NaN) by now rewrite length_zip_with.
    f_equal. apply nth_zip_with; lia.
  - intros i Hi. unfold div_by, scale. rewrite !map_map.
    rewrite (nth_map_in_range _ _ NaN) by now rewrite length_zip_with.
    rewrite conversion_factor_Gc. do 3 f_equal. apply nth_zip_with; lia.
  - reflexivity.
  - reflexivity.
  - exact Ly_is_not_l1.
  - exact V_is_not_Vall.
Qed.

Lemma spectral_curves_elementwise_witness :
  exists ct gc,
    Nemd.corr_time Example.shc = Ok ct
    /\ Nemd.Gc Example.shc (Example.K 10) = Ok gc
    /\ nth 1 ct NaN = fdiv (fadd (Example.K 6) (Example.K 8)) Nemd.Ly
    /\ nth 1 gc NaN =
       fdiv (fdiv (fmul (Nemd.of_Z 16000) (fadd (Example.K 2) (Example.K 4)))
                  Nemd.V) (Example.K 10).
Proof.
  destruct (spectral_curves_elementwise Example.shc (Example.K 10)
              eq_refl eq_refl)
    as (ct & gc & Hct & Hgc & Hi & Hj & _).
  exists ct, gc. split; [exact Hct|]. split; [exact Hgc|].
  split; [apply (Hi 1) | apply (Hj 1)]; vm_compute; lia.
Defined.

(** C6. When the six arrays of the spectral series have one common
    length, the correlation-time curve and [Gc] are both computed and
    both have that length, the length of the time and of the frequency
    axis. *)
Theorem spectral_curves_aligned (shc : Nemd.Shc) (dT : float) (n : nat) :
  List.length (Nemd.shc_jwi shc) = n ->
  List.length (Nemd.shc_jwo shc) = n ->
  List.length (Nemd.shc_Ki shc) = n ->
  List.length (Nemd.shc_Ko shc) = n ->
  List.length (Nemd.shc_t shc) = n ->
  List.length (Nemd.shc_nu shc) = n ->
  exists ct gc,
    Nemd.corr_time shc = Ok ct
    /\ Nemd.Gc shc dT = Ok gc
    /\ List.length ct = List.length (Nemd.shc_t shc)
    /\ List.length gc = List.length (Nemd.shc_nu shc)
    /\ List.length ct = n
    /\ List.length gc = n.
Proof.
  intros Hji Hjo HKi HKo Ht Hnu. unfold Nemd.corr_time, Nemd.Gc.
  rewrite (add_same_length (Nemd.shc_Ki shc) (Nemd.shc_Ko shc)) by congruence.
  rewrite (add_same_length (Nemd.shc_jwi shc) (Nemd.shc_jwo shc)) by congruence.
  cbn [rbind]. eexists. eexists.
  split; [reflexivity|]. split; [reflexivity|].
  unfold div_by, scale. rewrite !length_map.
  rewrite !length_zip_with by congruence.
  repeat split; congruence.
Qed.

Lemma spectral_curves_aligned_witness :
  exists ct gc,
    Nemd.corr_time Example.shc = Ok ct
    /\ Nemd.Gc Example.shc (Example.K 10) = Ok gc
    /\ List.length ct = 2
    /\ List.length gc = 2.
Proof.
  destruct (spectral_curves_aligned Example.shc (Example.K 10) (n := 2)
              eq_refl eq_refl eq_refl eq_refl eq_refl eq_refl)
    as (ct & gc & Hct & Hgc & _ & _ & Hlc & Hlg).
  exists ct, gc. repeat split; assumption.
Defined.

(** * Further properties of the script *)

(** ** Finite and non-finite profiles (lines 16 and 17) *)

Lemma of_nat_positive (n : nat) :
  0 < n -> sgn (Q2Qc (inject_Z (Z.of_nat n))) = Gt.
Proof.
  intro Hn. rewrite sgn_Q2Qc. cbn [Qnum inject_Z].
  apply Z.compare_gt_iff. lia.
Qed.






Lemma temp_ave_empty_window (T : ndarray2) :
  shape0 T <= 2 -> Nemd.temp_ave T = repeat NaN (ncols T - 1).
Proof.
  intro Hn. unfold Nemd.temp_ave, Nemd.ndata, Nemd.mid, mean_axis0, column.
  assert (E : rows (slice_from (shape0 T / 2 + 1) 1 T) = []).
  { unfold shape0 in *. cbn [rows slice_from].
    destruct (rows T) as [|r [|r' [|r'' rs]]]; simpl in *; trivial. lia. }
  rewrite E. cbn [map ncols slice_from].
  rewrite mean_nil, map_const_repeat, length_seq. reflexivity.
Qed.

(** X2. With at most 2 samples, two included, the window of line 17
    has no row and every entry of [temp_ave] is NaN: the profile needs
    at least 3 samples. *)
Theorem temp_ave_needs_three_samples (T : ndarray2) :
  shape0 T <= 2 ->
  rows (slice_from (Nemd.mid (Nemd.ndata T) + 1) 1 T) = []
  /\ Nemd.temp_ave T = repeat NaN (ncols T - 1).
Proof.
  intro Hn. split; [|now apply temp_ave_empty_window].
  unfold Nemd.ndata, Nemd.mid, shape0 in *. cbn [rows slice_from].
  destruct (rows T) as [|r [|r' [|r'' rs]]]; simpl in *; trivial. lia.
Qed.

Lemma temp_ave_needs_three_samples_witness :
  shape0 Report.T2x11 <= 2
  /\ Nemd.temp_ave Report.T2x11 = repeat NaN 10.
Proof.
  assert (Hn : shape0 Report.T2x11 <= 2) by (vm_compute; lia).
  split; [exact Hn|]. exact (proj2 (temp_ave_needs_three_samples Report.T2x11 Hn)).
Defined.

(** ** Bounds and symmetry of the flux estimators (lines 49 to 51) *)

Lemma getitem_raises_IndexError {X} (a : list X) (i : Z) (e : exn) :
  getitem a i = Raise e -> e = IndexError.
Proof.
  unfold getitem. destruct (_ && _)%bool; [|congruence].
  destruct (nth_error a _); congruence.
Qed.

Lemma getitem_last_nonempty {X} (a : list X) (d : X) :
  0 < List.length a -> getitem a (-1) = Ok (last a d).
Proof.
  intro H. rewrite (getitem_last a d). destruct a; [simpl in H; lia|reflexivity].
Qed.

Lemma Q1_in_range (dt Ns : float) (ndata : nat) (Ein : list float) :
  ndata / 2 < List.length Ein ->
  exists q, Nemd.Q1 dt Ns ndata Ein = Ok q.
Proof.
  intro H. unfold Nemd.Q1, Nemd.mid.
  rewrite (getitem_in_range Ein NaN) by lia.
  rewrite (getitem_last_nonempty Ein NaN) by lia.
  eexists. reflexivity.
Qed.

Lemma Q1_out_of_range (dt Ns : float) (ndata : nat) (Ein : list float) :
  List.length Ein <= ndata / 2 ->
  Nemd.Q1 dt Ns ndata Ein = Raise IndexError.
Proof.
  intro H. unfold Nemd.Q1, Nemd.mid.
  now rewrite (getitem_out_of_range Ein) by lia.
Qed.

Lemma Q2_in_range (dt Ns : float) (ndata : nat) (Eout : list float) :
  ndata / 2 < List.length Eout ->
  exists q, Nemd.Q2 dt Ns ndata Eout = Ok q.
Proof.
  intro H. unfold Nemd.Q2, Nemd.mid.
  rewrite (getitem_last_nonempty Eout NaN) by lia.
  rewrite (getitem_in_range Eout NaN) by lia.
  eexists. reflexivity.
Qed.

Lemma Q2_out_of_range (dt Ns : float) (ndata : nat) (Eout : list float) :
  List.length Eout <= ndata / 2 ->
  Nemd.Q2 dt Ns ndata Eout = Raise IndexError.
Proof.
  intro H. unfold Nemd.Q2, Nemd.mid.
  destruct (getitem Eout (-1)) as [a|e] eqn:E.
  - now rewrite (getitem_out_of_range Eout) by lia.
  - apply getitem_raises_IndexError in E. now subst.
Qed.

Lemma Q1_raises_IndexError
      (dt Ns : float) (ndata : nat) (Ein : list float) (e : exn) :
  Nemd.Q1 dt Ns ndata Ein = Raise e -> e = IndexError.
Proof.
  unfold Nemd.Q1. intro E.
  destruct (getitem Ein (Z.of_nat _)) as [a|e1] eqn:E1; cbn [rbind] in E.
  - destruct (getitem Ein (-1)) as [b|e2] eqn:E2; cbn [rbind] in E;
      [discriminate E|].
    apply getitem_raises_IndexError in E2. congruence.
  - apply getitem_raises_IndexError in E1. congruence.
Qed.

(** X4. The flux is computed exactly when both energy series reach
    beyond the midpoint index [ndata/2]; a series that stops at or
    before it, the empty series included, makes lines 49 to 51 raise
    [IndexError]. *)
Theorem Q_needs_both_series_past_midpoint
  (dt Ns : float) (ndata : nat) (Ein Eout : list float) :
  (ndata / 2 < List.length Ein -> ndata / 2 < List.length Eout ->
   exists q, Nemd.Q dt Ns ndata Ein Eout = Ok q)
  /\ (List.length Ein <= ndata / 2 \/ List.length Eout <= ndata / 2 ->
      Nemd.Q dt Ns ndata Ein Eout = Raise IndexError).
Proof.
  unfold Nemd.Q. split.
  - intros Hi Ho.
    destruct (Q1_in_range dt Ns ndata Ein Hi) as [q1 ->].
    destruct (Q2_in_range dt Ns ndata Eout Ho) as [q2 ->].
    eexists. reflexivity.
  - intros [Hi|Ho].
    + now rewrite Q1_out_of_range.
    + rewrite (Q2_out_of_range dt Ns ndata Eout Ho).
      destruct (Nemd.Q1 dt Ns ndata Ein) as [q1|e] eqn:E; [reflexivity|].
      apply Q1_raises_IndexError in E. now subst.
Qed.

Lemma Q_needs_both_series_past_midpoint_witness :
  (exists q, Nemd.Q Nemd.dt Nemd.Ns 4 Example.Ein4 Example.Eout4 = Ok q)
  /\ Nemd.Q Nemd.dt Nemd.Ns 4 Example.Ein4 (map Example.K [0; 2]%Z) =
     Raise IndexError.
Proof.
  split.
  - apply (proj1 (Q_needs_both_series_past_midpoint
                    Nemd.dt Nemd.Ns 4 Example.Ein4 Example.Eout4));
      vm_compute; lia.
  - apply (proj2 (Q_needs_both_series_past_midpoint
                    Nemd.dt Nemd.Ns 4 Example.Ein4 (map Example.K [0; 2]%Z))).
    right. vm_compute. lia.
Defined.

(** X5. The flux does not depend on the outbound energies: two
    outbound series that both reach beyond the midpoint index give the
    same [Q], whatever their entries. *)
Theorem Q_ignores_outbound_values
  (dt Ns : float) (ndata : nat) (Ein Eout Eout' : list float) :
  ndata / 2 < List.length Eout ->
  ndata / 2 < List.length Eout' ->
  Nemd.Q dt Ns ndata Ein Eout = Nemd.Q dt Ns ndata Ein Eout'.
Proof.
  intros H H'.
  destruct (Q2_in_range dt Ns ndata Eout H) as [q2 E2].
  destruct (Q2_in_range dt Ns ndata Eout' H') as [q2' E2'].
  now rewrite (@Q_eq_Q1 _ _ _ Ein _ _ E2), (@Q_eq_Q1 _ _ _ Ein _ _ E2').
Qed.

Lemma Q_ignores_outbound_values_witness :
  Nemd.Q Nemd.dt Nemd.Ns 4 Example.Ein4 Example.Eout4 =
  Nemd.Q Nemd.dt Nemd.Ns 4 Example.Ein4 (map Example.K [7; 7; 7]%Z).
Proof.
  apply Q_ignores_outbound_values; vm_compute; lia.
Defined.

Lemma fsub_neg_neg (a b : float) : fsub (fneg b) (fneg a) = fsub a b.
Proof.
  unfold fsub. destruct a as [a|[]|], b as [b|[]|]; simpl; trivial.
  f_equal. ring.
Qed.

(** X6. When the outbound series is the negation of the inbound one,
    entry by entry, the two estimators are equal, and the [Q] of the
    script is the mean of the two estimators. *)
Theorem Q_on_opposite_series
  (dt Ns : float) (ndata : nat) (Ein : list float) :
  Nemd.Q2 dt Ns ndata (map fneg Ein) = Nemd.Q1 dt Ns ndata Ein
  /\ Nemd.Q dt Ns ndata Ein (map fneg Ein) =
     Spec.heat_flux dt Ns ndata Ein (map fneg Ein).
Proof.
  assert (E : Nemd.Q2 dt Ns ndata (map fneg Ein) = Nemd.Q1 dt Ns ndata Ein).
  { unfold Nemd.Q2, Nemd.Q1. rewrite !getitem_map.
    destruct (getitem Ein (-1)) as [b|e2] eqn:E2;
      destruct (getitem Ein (Z.of_nat _)) as [a|e1] eqn:E1; cbn [rbind].
    - now rewrite fsub_neg_neg.
    - reflexivity.
    - apply getitem_raises_IndexError in E2. now subst.
    - apply getitem_raises_IndexError in E1, E2. now subst. }
  split; [exact E|].
  unfold Nemd.Q, Spec.heat_flux. rewrite E.
  destruct (Nemd.Q1 dt Ns ndata Ein); reflexivity.
Qed.

Lemma sgn_dt : sgn (Q2Qc 0.001) = Gt.
Proof. reflexivity. Qed.

Lemma sgn_1000 : sgn (Q2Qc (inject_Z 1000)) = Gt.
Proof. reflexivity. Qed.

Lemma fdiv_by_positive (a b : Qc) :
  sgn b = Gt -> fdiv (Fin a) (Fin b) = Fin (a / b)%Qc.
Proof. intro H. unfold fdiv. now rewrite H. Qed.

(** X7. With the script's [dt] and [Ns], at least one sample and
    finite energies at the two indices it reads, [Q1] is a finite
    value: the divisors [ndata/2], [dt] and [Ns] are all positive, so
    no division yields NaN or an infinity. *)
Theorem Q1_of_finite_energies_is_finite
  (ndata : nat) (Ein : list float) (a b : Qc) :
  0 < ndata ->
  getitem Ein (Z.of_nat (ndata / 2)) = Ok (Fin a) ->
  getitem Ein (-1) = Ok (Fin b) ->
  exists q, Nemd.Q1 Nemd.dt Nemd.Ns ndata Ein = Ok (Fin q).
Proof.
  intros Hn Ha Hb. unfold Nemd.Q1, Nemd.mid. rewrite Ha, Hb. cbn [rbind].
  unfold Nemd.dt, Nemd.Ns, Nemd.of_Z, of_Q, of_nat.
  pose proof (of_nat_positive Hn) as HN.
  set (N := Q2Qc (inject_Z (Z.of_nat ndata))) in *.
  assert (H2 : sgn (Q2Qc (inject_Z 2)) = Gt) by reflexivity.
  set (c2 := Q2Qc (inject_Z 2)) in *.
  assert (Hh : sgn (N / c2)%Qc = Gt) by (rewrite sgn_div, HN, H2; reflexivity).
  cbn [fsub fneg fadd].
  rewrite (@fdiv_by_positive N _ H2), (@fdiv_by_positive _ _ Hh).
  rewrite (@fdiv_by_positive _ _ sgn_dt), (@fdiv_by_positive _ _ sgn_1000).
  eexists. reflexivity.
Qed.

Lemma Q1_of_finite_energies_is_finite_witness :
  exists q, Nemd.Q1 Nemd.dt Nemd.Ns 4 Example.Ein4 = Ok (Fin q).
Proof.
  apply (@Q1_of_finite_energies_is_finite 4 Example.Ein4
           (Q2Qc (inject_Z (-2))) (Q2Qc (inject_Z (-3))));
    [lia|reflexivity|reflexivity].
Defined.

(** ** The tables with a header (lines 36 to 41, 69 to 74, 79 to 84) *)

Section HeaderTables.

Local Open Scope string_scope.

Variable str_float : float -> string.

Lemma write_EnergyAccumulation_short (t Ein Eout : list float) (fs : files) :
  Nat.min (List.length Ein) (List.length Eout) < List.length t ->
  Nemd.write_EnergyAccumulation str_float t Ein Eout fs =
  (put "EnergyAccumulation.txt"
     (Report.glued Nemd.EnergyAccumulation_header
        (Report.EnergyAccumulation_rows str_float t Ein Eout
           (Nat.min (List.length Ein) (List.length Eout))))
     fs, Raise IndexError).
Proof.
  intro Hm. unfold Nemd.write_EnergyAccumulation, with_open_w.
  unfold bind at 1. unfold writelines at 1. unfold range.
  rewrite Nat.sub_0_r.
  set (m := Nat.min (List.length Ein) (List.length Eout)) in *.
  replace (seq 0 (List.length t))
    with (seq 0 m ++ m :: seq (S m) (List.length t - S m))%list
    by (rewrite cons_seq, <- seq_app; f_equal; lia).
  rewrite (@loop_stops_at_raise _ _ (EnergyAccumulation_body str_float t Ein Eout)
             (fun i =>
                Nemd.format3 (str_float (nth i t NaN))
                  (str_float (nth i Ein NaN)) (str_float (nth i Eout NaN)))
             (seq 0 m) _ m IndexError).
  - reflexivity.
  - intros i Hin. apply in_seq in Hin. unfold LoopRow.EnergyAccumulation.
    rewrite (getitem_in_range t NaN), (getitem_in_range Ein NaN),
      (getitem_in_range Eout NaN) by lia.
    reflexivity.
  - unfold LoopRow.EnergyAccumulation.
    rewrite (getitem_in_range t NaN) by lia. cbn [rbind].
    destruct (Nat.le_gt_cases (List.length Ein) m) as [Hi|Hi].
    + now rewrite getitem_out_of_range by lia.
    + rewrite (getitem_in_range Ein NaN) by lia. cbn [rbind].
      now rewrite getitem_out_of_range by lia.
Qed.

(** X8. EnergyAccumulation.txt in general.  When both energy series
    have an entry for every time, the file is the header followed at
    once by one row per time, each ended by a newline, and the writer
    returns.  When a series is shorter than the time axis, the writer
    raises [IndexError] at the first time without an entry, and the
    file keeps the header and the rows written until then. *)
Theorem EnergyAccumulation_file (t Ein Eout : list float) (fs : files) :
  let m := Nat.min (List.length Ein) (List.length Eout) in
  (List.length t <= m ->
   Nemd.write_EnergyAccumulation str_float t Ein Eout fs =
   (put "EnergyAccumulation.txt"
      (Report.glued Nemd.EnergyAccumulation_header
         (Report.EnergyAccumulation_rows str_float t Ein Eout (List.length t)))
      fs, Ok tt))
  /\ (m < List.length t ->
      Nemd.write_EnergyAccumulation str_float t Ein Eout fs =
      (put "EnergyAccumulation.txt"
         (Report.glued Nemd.EnergyAccumulation_header
            (Report.EnergyAccumulation_rows str_float t Ein Eout m))
         fs, Raise IndexError)).
Proof.
  intro m. split; intro H.
  - apply write_EnergyAccumulation_text; lia.
  - now apply write_EnergyAccumulation_short.
Qed.

(** The loop shared by the two spectral writers. *)
Lemma two_columns_body (axis curve : list float) (i : nat) (c : string) :
  bind (lift (getitem axis (Z.of_nat i))) (fun x =>
  bind (lift (getitem curve (Z.of_nat i))) (fun y =>
  bind (writelines (Nemd.format2 (str_float x) (str_float y))) (fun _ =>
  writelines nl))) c =
  match Report.two_columns str_float axis curve i with
  | Ok s => ((c ++ s) ++ nl, Ok tt)
  | Raise e => (c, Raise e)
  end.
Proof.
  unfold Report.two_columns, bind, lift, writelines.
  destruct (getitem axis _); [|reflexivity].
  destruct (getitem curve _); reflexivity.
Qed.

Lemma two_column_loop_complete (axis curve : list float) (c : string) :
  List.length curve <= List.length axis ->
  for_each (range 0 (List.length curve))
    (fun i =>
       bind (lift (getitem axis (Z.of_nat i))) (fun x =>
       bind (lift (getitem curve (Z.of_nat i))) (fun y =>
       bind (writelines (Nemd.format2 (str_float x) (str_float y))) (fun _ =>
       writelines nl)))) c =
  (c ++ Spec.unlines
          (Report.two_column_rows str_float axis curve (List.length curve)),
   Ok tt).
Proof.
  intro H. unfold range. rewrite Nat.sub_0_r.
  rewrite (@loop_all_written _ _ (two_columns_body axis curve)
             (fun i =>
                Nemd.format2 (str_float (nth i axis NaN))
                  (str_float (nth i curve NaN)))).
  - reflexivity.
  - intros i Hi. apply in_seq in Hi. unfold Report.two_columns.
    rewrite (getitem_in_range axis NaN), (getitem_in_range curve NaN) by lia.
    reflexivity.
Qed.

Lemma two_column_loop_short (axis curve : list float) (c : string) :
  List.length axis < List.length curve ->
  for_each (range 0 (List.length curve))
    (fun i =>
       bind (lift (getitem axis (Z.of_nat i))) (fun x =>
       bind (lift (getitem curve (Z.of_nat i))) (fun y =>
       bind (writelines (Nemd.format2 (str_float x) (str_float y))) (fun _ =>
       writelines nl)))) c =
  (c ++ Spec.unlines
          (Report.two_column_rows str_float axis curve (List.length axis)),
   Raise IndexError).
Proof.
  intro H. unfold range. rewrite Nat.sub_0_r.
  set (m := List.length axis) in *.
  replace (seq 0 (List.length curve))
    with (seq 0 m ++ m :: seq (S m) (List.length curve - S m))%list
    by (rewrite cons_seq, <- seq_app; f_equal; lia).
  rewrite (@loop_stops_at_raise _ _ (two_columns_body axis curve)
             (fun i =>
                Nemd.format2 (str_float (nth i axis NaN))
                  (str_float (nth i curve NaN)))
             (seq 0 m) _ m IndexError).
  - reflexivity.
  - intros i Hi. apply in_seq in Hi. unfold Report.two_columns.
    rewrite (getitem_in_range axis NaN), (getitem_in_range curve NaN)
      by (fold m; lia).
    reflexivity.
  - unfold Report.two_columns.
    now rewrite getitem_out_of_range by (fold m; lia).
Qed.

Lemma write_CorrelationTime_complete
      (shc : Nemd.Shc) (corr_time : list float) (fs : files) :
  List.length corr_time <= List.length (Nemd.shc_t shc) ->
  Nemd.write_CorrelationTime str_float shc corr_time fs =
  (put "CorrelationTime.txt"
     (Report.glued Report.CorrelationTime_header
        (Report.two_column_rows str_float (Nemd.shc_t shc) corr_time
           (List.length corr_time)))
     fs, Ok tt).
Proof.
  intro H. unfold Nemd.write_CorrelationTime, with_open_w.
  unfold bind at 1. unfold writelines at 1.
  now rewrite two_column_loop_complete.
Qed.

Lemma write_SpectralConductance_complete
      (shc : Nemd.Shc) (Gc : list float) (fs : files) :
  List.length Gc <= List.length (Nemd.shc_nu shc) ->
  Nemd.write_SpectralConductance str_float shc Gc fs =
  (put "SpectralConductance.txt"
     (Report.glued Report.SpectralConductance_header
        (Report.two_column_rows str_float (Nemd.shc_nu shc) Gc
           (List.length Gc)))
     fs, Ok tt).
Proof.
  intro H. unfold Nemd.write_SpectralConductance, with_open_w.
  unfold bind at 1. unfold writelines at 1.
  now rewrite two_column_loop_complete.
Qed.

(** X9. CorrelationTime.txt.  With a time lag for every entry of the
    curve, the file is the header followed at once by one row
    ["<t> <value>"] per entry, each ended by a newline.  With a shorter
    time axis the writer raises [IndexError] and the file keeps the
    header and one row per time lag. *)
Theorem CorrelationTime_file
  (shc : Nemd.Shc) (corr_time : list float) (fs : files) :
  (List.length corr_time <= List.length (Nemd.shc_t shc) ->
   Nemd.write_CorrelationTime str_float shc corr_time fs =
   (put "CorrelationTime.txt"
      (Report.glued Report.CorrelationTime_header
         (Report.two_column_rows str_float (Nemd.shc_t shc) corr_time
            (List.length corr_time)))
      fs, Ok tt))
  /\ (List.length (Nemd.shc_t shc) < List.length corr_time ->
      Nemd.write_CorrelationTime str_float shc corr_time fs =
      (put "CorrelationTime.txt"
         (Report.glued Report.CorrelationTime_header
            (Report.two_column_rows str_float (Nemd.shc_t shc) corr_time
               (List.length (Nemd.shc_t shc))))
         fs, Raise IndexError)).
Proof.
  split; intro H.
  - now apply write_CorrelationTime_complete.
  - unfold Nemd.write_CorrelationTime, with_open_w.
    unfold bind at 1. unfold writelines at 1.
    now rewrite two_column_loop_short.
Qed.

(** X10. SpectralConductance.txt.  With a frequency for every entry of
    [Gc], the file is the header followed at once by one row
    ["<nu> <Gc>"] per entry, each ended by a newline.  With a shorter
    frequency axis the writer raises [IndexError] and the file keeps
    the header and one row per frequency. *)
Theorem SpectralConductance_file
  (shc : Nemd.Shc) (Gc : list float) (fs : files) :
  (List.length Gc <= List.length (Nemd.shc_nu shc) ->
   Nemd.write_SpectralConductance str_float shc Gc fs =
   (put "SpectralConductance.txt"
      (Report.glued Report.SpectralConductance_header
         (Report.two_column_rows str_float (Nemd.shc_nu shc) Gc
            (List.length Gc)))
      fs, Ok tt))
  /\ (List.length (Nemd.shc_nu shc) < List.length Gc ->
      Nemd.write_SpectralConductance str_float shc Gc fs =
      (put "SpectralConductance.txt"
         (Report.glued Report.SpectralConductance_header
            (Report.two_column_rows str_float (Nemd.shc_nu shc) Gc
               (List.length (Nemd.shc_nu shc))))
         fs, Raise IndexError)).
Proof.
  split; intro H.
  - now apply write_SpectralConductance_complete.
  - unfold Nemd.write_SpectralConductance, with_open_w.
    unfold bind at 1. unfold writelines at 1.
    now rewrite two_column_loop_short.
Qed.

End HeaderTables.

Lemma EnergyAccumulation_file_witness :
  Nemd.write_EnergyAccumulation Example.str_float
    (Nemd.t Nemd.dt Nemd.Ns 4) Example.Ein4 Example.Eout4 no_files =
  (put "EnergyAccumulation.txt"
     (Report.glued Nemd.EnergyAccumulation_header
        (Report.EnergyAccumulation_rows Example.str_float
           (Nemd.t Nemd.dt Nemd.Ns 4) Example.Ein4 Example.Eout4 4))
     no_files, Ok tt)
  /\ Nemd.write_EnergyAccumulation Example.str_float
       (Nemd.t Nemd.dt Nemd.Ns 4) (map Example.K [0; -1]%Z) Example.Eout4
       no_files =
     (put "EnergyAccumulation.txt"
        (Report.glued Nemd.EnergyAccumulation_header
           (Report.EnergyAccumulation_rows Example.str_float
              (Nemd.t Nemd.dt Nemd.Ns 4) (map Example.K [0; -1]%Z)
              Example.Eout4 2))
        no_files, Raise IndexError).
Proof.
  split.
  - apply (proj1 (EnergyAccumulation_file Example.str_float
                    (Nemd.t Nemd.dt Nemd.Ns 4) Example.Ein4 Example.Eout4
                    no_files)).
    vm_compute. lia.
  - apply (proj2 (EnergyAccumulation_file Example.str_float
                    (Nemd.t Nemd.dt Nemd.Ns 4) (map Example.K [0; -1]%Z)
                    Example.Eout4 no_files)).
    vm_compute. lia.
Defined.

Lemma CorrelationTime_file_witness :
  Nemd.write_CorrelationTime Example.str_float Example.shc
    (map Example.K [1; 2]%Z) no_files =
  (put "CorrelationTime.txt"
     (Report.glued Report.CorrelationTime_header
        (Report.two_column_rows Example.str_float (Nemd.shc_t Example.shc)
           (map Example.K [1; 2]%Z) 2))
     no_files, Ok tt)
  /\ Nemd.write_CorrelationTime Example.str_float Report.shc_short_axis
       (map Example.K [1; 2]%Z) no_files =
     (put "CorrelationTime.txt"
        (Report.glued Report.CorrelationTime_header
           (Report.two_column_rows Example.str_float
              (Nemd.shc_t Report.shc_short_axis) (map Example.K [1; 2]%Z) 1))
        no_files, Raise IndexError).
Proof.
  split.
  - apply (proj1 (CorrelationTime_file Example.str_float Example.shc
                    (map Example.K [1; 2]%Z) no_files)).
    vm_compute. lia.
  - apply (proj2 (CorrelationTime_file Example.str_float Report.shc_short_axis
                    (map Example.K [1; 2]%Z) no_files)).
    vm_compute. lia.
Defined.

Lemma SpectralConductance_file_witness :
  Nemd.write_SpectralConductance Example.str_float Example.shc
    (map Example.K [1; 2]%Z) no_files =
  (put "SpectralConductance.txt"
     (Report.glued Report.SpectralConductance_header
        (Report.two_column_rows Example.str_float (Nemd.shc_nu Example.shc)
           (map Example.K [1; 2]%Z) 2))
     no_files, Ok tt)
  /\ Nemd.write_SpectralConductance Example.str_float Example.shc
       (map Example.K [1; 2; 3]%Z) no_files =
     (put "SpectralConductance.txt"
        (Report.glued Report.SpectralConductance_header
           (Report.two_column_rows Example.str_float (Nemd.shc_nu Example.shc)
              (map Example.K [1; 2; 3]%Z) 2))
        no_files, Raise IndexError).
Proof.
  split.
  - apply (proj1 (SpectralConductance_file Example.str_float Example.shc
                    (map Example.K [1; 2]%Z) no_files)).
    vm_compute. lia.
  - apply (proj2 (SpectralConductance_file Example.str_float Example.shc
                    (map Example.K [1; 2; 3]%Z) no_files)).
    vm_compute. lia.
Defined.

(** ** Runs of the whole script *)

Section Runs.

Local Open Scope string_scope.

Variable str_float : float -> string.

Lemma length_t (dt Ns : float) (ndata : nat) :
  List.length (Nemd.t dt Ns ndata) = ndata.
Proof.
  unfold Nemd.t, div_by, scale, arange, range.
  rewrite !length_map, length_seq. lia.
Qed.

Lemma deltaT_in_script (T : ndarray2) :
  2 <= ncols T -> exists dT, Nemd.deltaT (Nemd.temp_ave T) = Ok dT.
Proof.
  intro Hc. pose proof (length_temp_ave T) as Hlen.
  destruct (Nemd.temp_ave T) as [|x rest]; [simpl in Hlen; lia|].
  rewrite deltaT_first_last. eexists. reflexivity.
Qed.


Lemma Q_in_script (ndata : nat) (Ein Eout : list float) :
  0 < ndata -> ndata <= List.length Ein -> ndata <= List.length Eout ->
  exists q, Nemd.Q Nemd.dt Nemd.Ns ndata Ein Eout = Ok q.
Proof.
  intros Hn Hi Ho.
  assert (Hm : ndata / 2 < ndata) by (apply Nat.div_lt; lia).
  destruct (Q1_in_range Nemd.dt Nemd.Ns ndata Ein) as [q1 H1]; [lia|].
  destruct (Q2_in_range Nemd.dt Nemd.Ns ndata Eout) as [q2 H2]; [lia|].
  unfold Nemd.Q. rewrite H1, H2. eexists. reflexivity.
Qed.

Lemma add_ragged (a b : list float) :
  List.length a <> List.length b ->
  List.length a <> 1 -> List.length b <> 1 ->
  add a b = Raise ValueError.
Proof.
  intros Hab Ha Hb. unfold add.
  destruct (Nat.eqb_spec (List.length a) (List.length b)); [contradiction|].
  destruct (Nat.eqb_spec (List.length a) 1); [contradiction|].
  destruct (Nat.eqb_spec (List.length b) 1); [contradiction|reflexivity].
Qed.


(** X12. Energies that stop before the last sample end the run while
    EnergyAccumulation.txt is written: the script raises [IndexError],
    TempProfile.txt is complete, EnergyAccumulation.txt holds the
    header and the rows of the samples that have both energies, and the
    two spectral files are not touched. *)
Theorem script_stops_on_short_energies
  (compute : Nemd.Compute) (shc : Nemd.Shc) (fs : files) :
  let T := Nemd.compute_T compute in
  let Ein := Nemd.compute_Ein compute in
  let Eout := Nemd.compute_Eout compute in
  let m := Nat.min (List.length Ein) (List.length Eout) in
  10 <= ncols T -> m < shape0 T ->
  Nemd.script str_float compute shc fs =
  (put "EnergyAccumulation.txt"
     (Report.glued Nemd.EnergyAccumulation_header
        (Report.EnergyAccumulation_rows str_float
           (Nemd.t Nemd.dt Nemd.Ns (shape0 T)) Ein Eout m))
     (put "TempProfile.txt"
        (Spec.unlines (Report.TempProfile_rows str_float (Nemd.temp_ave T) 9))
        fs),
   Raise IndexError).
Proof.
  intros T Ein Eout m Hc Hm.
  unfold Nemd.script. fold T Ein Eout. unfold Nemd.ndata.
  unfold bind at 1.
  rewrite write_TempProfile_nine by (rewrite length_temp_ave; lia).
  unfold bind at 1.
  rewrite write_EnergyAccumulation_short by (rewrite length_t; exact Hm).
  reflexivity.
Qed.

(** X13. Forward and backward frequency-domain arrays of different
    lengths, neither of length 1, end the run at line 65 with
    [ValueError]: the first two files are written in full and neither
    spectral file is created. *)
Theorem script_stops_on_ragged_spectrum
  (compute : Nemd.Compute) (shc : Nemd.Shc) (fs : files) :
  let T := Nemd.compute_T compute in
  let Ein := Nemd.compute_Ein compute in
  let Eout := Nemd.compute_Eout compute in
  10 <= ncols T -> 0 < shape0 T ->
  shape0 T <= List.length Ein -> shape0 T <= List.length Eout ->
  List.length (Nemd.shc_jwi shc) <> List.length (Nemd.shc_jwo shc) ->
  List.length (Nemd.shc_jwi shc) <> 1 ->
  List.length (Nemd.shc_jwo shc) <> 1 ->
  Nemd.script str_float compute shc fs =
  (put "EnergyAccumulation.txt"
     (Report.glued Nemd.EnergyAccumulation_header
        (Report.EnergyAccumulation_rows str_float
           (Nemd.t Nemd.dt Nemd.Ns (shape0 T)) Ein Eout (shape0 T)))
     (put "TempProfile.txt"
        (Spec.unlines (Report.TempProfile_rows str_float (Nemd.temp_ave T) 9))
        fs),
   Raise ValueError).
Proof.
  intros T Ein Eout Hc Hn Hi Ho Hne Hi1 Ho1.
  destruct (deltaT_in_script T) as [dT HdT]; [lia|].
  destruct (@Q_in_script (shape0 T) Ein Eout Hn Hi Ho) as [q HQ].
  assert (Hgc : Nemd.Gc shc dT = Raise ValueError).
  { unfold Nemd.Gc. now rewrite add_ragged. }
  unfold Nemd.script. fold T Ein Eout. unfold Nemd.ndata.
  unfold bind at 1.
  rewrite write_TempProfile_nine by (rewrite length_temp_ave; lia).
  unfold bind at 1.
  rewrite write_EnergyAccumulation_text by (rewrite length_t; lia).
  rewrite length_t.
  unfold bind at 1. unfold lift at 1. rewrite HdT.
  unfold bind at 1. unfold lift at 1. rewrite HQ.
  unfold bind at 1. unfold lift at 1. rewrite Hgc.
  reflexivity.
Qed.

Lemma fdiv_nan_r (x : float) : fdiv x NaN = NaN.
Proof. destruct x; reflexivity. Qed.

Lemma deltaT_of_nan_profile (k : nat) (d : float) :
  Nemd.deltaT (repeat NaN k) = Ok d -> d = NaN.
Proof.
  destruct k as [|k]; [discriminate|].
  cbn [repeat]. rewrite deltaT_first_last. intro H. now injection H as <-.
Qed.

(** X14. A run of at most 2 samples that reaches its end has carried
    the NaN of the profile into every result that depends on it: the
    temperature difference, the conductance [G] and every entry of the
    saved [Gc] are NaN. *)
Theorem nan_profile_reaches_every_output
  (compute : Nemd.Compute) (shc : Nemd.Shc) (fs : files) (out : Nemd.outputs) :
  snd (Nemd.script str_float compute shc fs) = Ok out ->
  shape0 (Nemd.compute_T compute) <= 2 ->
  Nemd.out_deltaT out = NaN
  /\ Nemd.out_G out = NaN
  /\ Forall (fun x => x = NaN) (Nemd.saved_Gc out).
Proof.
  intros Hrun Hn. apply script_outputs in Hrun.
  destruct Hrun as (_ & HdT & _ & HG & Hgc & _).
  rewrite temp_ave_empty_window in HdT by exact Hn.
  apply deltaT_of_nan_profile in HdT.
  rewrite HdT in *. split; [reflexivity|]. split.
  - rewrite HG. unfold Nemd.G. now rewrite fdiv_nan_r.
  - unfold Nemd.Gc in Hgc.
    destruct (add _ _) as [sum|]; [|discriminate Hgc].
    cbn [rbind] in Hgc. injection Hgc as <-.
    unfold div_by. apply Forall_forall. intros x Hx.
    apply in_map_iff in Hx. destruct Hx as (y & <- & _). apply fdiv_nan_r.
Qed.

End Runs.


Lemma script_stops_on_short_energies_witness :
  snd (Nemd.script Example.str_float Report.compute_short Example.shc no_files)
  = Raise IndexError
  /\ fst (Nemd.script Example.str_float Report.compute_short Example.shc
            no_files) "CorrelationTime.txt"%string = None.
Proof.
  assert (Hc : 10 <= ncols (Nemd.compute_T Report.compute_short))
    by (vm_compute; lia).
  assert (Hm : Nat.min (List.length (Nemd.compute_Ein Report.compute_short))
                 (List.length (Nemd.compute_Eout Report.compute_short))
               < shape0 (Nemd.compute_T Report.compute_short))
    by (vm_compute; lia).
  rewrite (script_stops_on_short_energies Example.str_float
             Report.compute_short Example.shc no_files Hc Hm).
  split; reflexivity.
Defined.

Lemma script_stops_on_ragged_spectrum_witness :
  snd (Nemd.script Example.str_float Example.compute Report.shc_ragged no_files)
  = Raise ValueError
  /\ fst (Nemd.script Example.str_float Example.compute Report.shc_ragged
            no_files) "CorrelationTime.txt"%string = None.
Proof.
  rewrite (script_stops_on_ragged_spectrum Example.str_float
             Example.compute Report.shc_ragged no_files);
    [split; reflexivity| | | | | | |]; vm_compute; try lia; discriminate.
Defined.

Lemma short_script_runs_on_example :
  { out | snd (Nemd.script Example.str_float Report.compute2 Example.shc
                 no_files) = Ok out }.
Proof. eexists. vm_compute. reflexivity. Defined.

Lemma nan_profile_reaches_every_output_witness :
  exists out,
    snd (Nemd.script Example.str_float Report.compute2 Example.shc no_files)
    = Ok out
    /\ Nemd.out_G out = NaN
    /\ Forall (fun x => x = NaN) (Nemd.saved_Gc out).
Proof.
  destruct short_script_runs_on_example as [out Hrun].
  assert (Hn : shape0 (Nemd.compute_T Report.compute2) <= 2)
    by (vm_compute; lia).
  exists out. split; [exact Hrun|].
  exact (proj2 (nan_profile_reaches_every_output Example.str_float
                  Report.compute2 Example.shc no_files Hrun Hn)).
Defined.

(** ** Symmetries of the derived quantities *)

Lemma fadd_comm (a b : float) : fadd a b = fadd b a.
Proof.
  destruct a as [a|[]|], b as [b|[]|]; simpl; trivial. f_equal. ring.
Qed.

Lemma zip_with_comm {X Y} (f : X -> X -> Y) (a b : list X) :
  (forall x y, f x y = f y x) -> zip_with f a b = zip_with f b a.
Proof.
  intro Hf. revert b. induction a as [|x a IH]; intros [|y b]; simpl; trivial.
  now rewrite Hf, IH.
Qed.

Lemma add_comm (a b : list float) : add a b = add b a.
Proof.
  unfold add. rewrite (Nat.eqb_sym (List.length b) (List.length a)).
  destruct (Nat.eqb_spec (List.length a) (List.length b)) as [E|E].
  - f_equal. apply zip_with_comm, fadd_comm.
  - destruct (Nat.eqb_spec (List.length a) 1) as [Ea|Ea];
      destruct (Nat.eqb_spec (List.length b) 1) as [Eb|Eb]; try lia.
    + f_equal. apply map_ext. intro x. apply fadd_comm.
    + f_equal. apply map_ext. intro x. apply fadd_comm.
    + reflexivity.
Qed.

(** X15. The two curves do not tell the forward from the backward
    component: with [jwi] and [jwo] exchanged, and [Ki] and [Ko]
    exchanged, [Gc] and the correlation-time curve are the same, and
    they raise the same [ValueError] when the shapes do not fit. *)
Theorem spectral_curves_symmetric (shc : Nemd.Shc) (dT : float) :
  Nemd.Gc (Report.swap shc) dT = Nemd.Gc shc dT
  /\ Nemd.corr_time (Report.swap shc) = Nemd.corr_time shc.
Proof.
  unfold Nemd.Gc, Nemd.corr_time, Report.swap.
  cbn [Nemd.shc_jwi Nemd.shc_jwo Nemd.shc_Ki Nemd.shc_Ko].
  now rewrite (add_comm (Nemd.shc_jwo shc)), (add_comm (Nemd.shc_Ko shc)).
Qed.

Lemma fsub_swap (a b : float) : fsub b a = fneg (fsub a b).
Proof.
  unfold fsub. destruct a as [a|[]|], b as [b|[]|]; simpl; trivial.
  f_equal. ring.
Qed.

Lemma deltaT_rev (ta : list float) :
  Nemd.deltaT (rev ta) =
  match Nemd.deltaT ta with
  | Ok d => Ok (fneg d)
  | Raise e => Raise e
  end.
Proof.
  destruct ta as [|x rest]; [reflexivity|].
  rewrite deltaT_first_last.
  assert (E : rev (x :: rest) =
              last (x :: rest) NaN :: rev (removelast (x :: rest))).
  { rewrite (app_removelast_last NaN (l := x :: rest)) at 1 by discriminate.
    rewrite rev_app_distr. reflexivity. }
  rewrite E, deltaT_first_last, <- E. cbn [rev]. rewrite last_last.
  now rewrite fsub_swap.
Qed.

Section Negation.

Local Open Scope Qc_scope.

Lemma fdiv_neg_l (y a : float) : fdiv (fneg y) a = fneg (fdiv y a).
Proof.
  destruct y as [y|s|], a as [a|s'|]; float_cases;
    try (f_equal; field; nonzero); try (f_equal; ring).
  all: destruct s; reflexivity.
Qed.

Lemma fdiv_neg_r (x d : float) :
  d <> Fin 0 -> fdiv x (fneg d) = fneg (fdiv x d).
Proof.
  intro Hd. destruct x as [x|s|], d as [d|s'|]; float_cases;
    try (f_equal; ring).
  all: try (apply sgn_Eq in E; subst; congruence).
  all: try (destruct s; reflexivity).
  all: f_equal; field; repeat split; apply sgn_nonzero;
    rewrite ?sgn_opp, E; discriminate.
Qed.

End Negation.

(** X16. Reading the profile in the opposite group order negates the
    temperature difference, and, for a difference other than zero,
    negates the conductance: the sign of [G] is the sign convention of
    the group order, no more. *)
Theorem reversed_profile_negates_G
  (temp_ave : list float) (d q a : float) :
  Nemd.deltaT temp_ave = Ok d ->
  d <> Fin 0%Qc ->
  Nemd.deltaT (rev temp_ave) = Ok (fneg d)
  /\ Nemd.G q (fneg d) a = fneg (Nemd.G q d a).
Proof.
  intros HdT Hd. split.
  - now rewrite deltaT_rev, HdT.
  - unfold Nemd.G. now rewrite (fdiv_neg_r _ Hd), fdiv_neg_l.
Qed.

Lemma reversed_profile_negates_G_witness :
  Nemd.deltaT (rev [Example.K 350; Example.K 250]) =
  Ok (fneg (fsub (Example.K 350) (Example.K 250)))
  /\ Nemd.G (Example.K 1) (fneg (fsub (Example.K 350) (Example.K 250))) Nemd.A =
     fneg (Nemd.G (Example.K 1) (fsub (Example.K 350) (Example.K 250)) Nemd.A).
Proof.
  apply reversed_profile_negates_G.
  - reflexivity.
  - intro H. vm_compute in H. discriminate H.
Defined.

Lemma script_stops_at_TempProfile_witness :
  snd (Nemd.script Example.str_float
         (Nemd.mk_compute Example.T4x3 Example.Ein4 Example.Eout4)
         Example.shc no_files) = Raise IndexError
  /\ forall path, path <> "TempProfile.txt"%string ->
       fst (Nemd.script Example.str_float
              (Nemd.mk_compute Example.T4x3 Example.Ein4 Example.Eout4)
              Example.shc no_files) path = no_files path.
Proof.
  apply script_stops_at_TempProfile. vm_compute. lia.
Defined.
